(** * Session controller of the video-sharing back end

    A shallow embedding of [controllers/user.controller.js]
    (generateTokens, registerUser, loginUser, logoutUser,
    refreshAcessToken, changeCurrentPassword) and the properties of the
    authentication / session life cycle that hold of it.

    Conventions of the embedding:
    - a JavaScript string is a [string] of code units below 256;
    - a request field that is either absent ([undefined]) or a string
      is an [option string];
    - an [async] handler is a function in the monad [M]: it threads the
      [world] (credential store, call log, un-awaited promises) and
      either returns a value or throws an [error];
    - the credential store is the list of its records, in insertion
      order; its calls always complete (no lost connection), its [_id]s
      are natural numbers;
    - a call of an [async] function that is awaited runs to its end
      before the caller goes on; no two requests interleave;
    - the collaborators whose code is not part of the controller (token
      signing and verification, password hashing, media upload) are the
      fields of the class [Collaborators]. *)

From Stdlib Require Import String Ascii List Bool Arith Lia.
Import ListNotations.
Set Warnings "-register-all".
Open Scope string_scope.
Open Scope bool_scope.

(** ** JavaScript strings and truthiness *)

Module Js.

(** WhiteSpace and LineTerminator code points below 256, the ones
    [String.prototype.trim] strips: TAB, LF, VT, FF, CR, SP, NBSP. *)
Definition isWhiteSpace (c : ascii) : bool :=
  let n := nat_of_ascii c in
  (((9 <=? n) && (n <=? 13)) || (n =? 32) || (n =? 160))%nat.

Fixpoint trimStart (s : string) : string :=
  match s with
  | EmptyString => EmptyString
  | String c r => if isWhiteSpace c then trimStart r else s
  end.

Fixpoint trimEnd (s : string) : string :=
  match s with
  | EmptyString => EmptyString
  | String c r =>
      match trimEnd r with
      | EmptyString => if isWhiteSpace c then EmptyString else String c EmptyString
      | r' => String c r'
      end
  end.

Definition trim (s : string) : string := trimEnd (trimStart s).

(** [String.prototype.toLowerCase] on code units below 256: A-Z and the
    Latin-1 capitals (all of U+00C0..U+00DE but the multiplication sign). *)
Definition lowerCode (c : ascii) : ascii :=
  let n := nat_of_ascii c in
  if (((65 <=? n) && (n <=? 90))
      || ((192 <=? n) && (n <=? 222) && negb (n =? 215)))%nat
  then ascii_of_nat (n + 32) else c.

Fixpoint toLowerCase (s : string) : string :=
  match s with
  | EmptyString => EmptyString
  | String c r => String (lowerCode c) (toLowerCase r)
  end.

(** Truthiness of a value that is [undefined] or a string. *)
Definition truthy (v : option string) : bool :=
  match v with
  | Some s => negb (s =? "")
  | None => false
  end.

(** [a || b] *)
Definition or (a b : option string) : option string :=
  if truthy a then a else b.

(** [a === b] on values that are [undefined] or strings. *)
Definition strict_eq (a b : option string) : bool :=
  match a, b with
  | Some x, Some y => x =? y
  | None, None => true
  | _, _ => false
  end.

(** [field?.trim()] *)
Definition opt_trim (field : option string) : option string :=
  option_map trim field.

(** The values the controller puts into cookies and response bodies. *)
Inductive value : Type :=
| Undefined
| Null
| Num (n : nat)
| Str (s : string)
| Obj (fields : list (string * value)).

Definition get (key : string) (fields : list (string * value)) : option value :=
  option_map snd (find (fun kv => fst kv =? key) fields).

Definition has (key : string) (fields : list (string * value)) : bool :=
  existsb (fun kv => fst kv =? key) fields.

End Js.

(** ** Errors *)

(** What a handler can throw: the controller's own [ApiError], the
    [TypeError] of a property access on [null] or [undefined], and the
    errors raised inside the collaborators. *)
Inductive error : Type :=
| ApiError (statusCode : nat) (message : string)
| TypeError (message : string)
| JsonWebTokenError (message : string)
| HashError (message : string)
| StoreError (message : string).

(** The error kinds of the specification, by status code and message of
    the [ApiError] the controller throws.  [jwt.verify] is the
    specification's [verifyRefreshToken]; what it throws is the
    specification's [InvalidTokenError]. *)
Inductive kind : Type :=
| ValidationError | ConflictError | AuthenticationError | InvalidTokenError
| ExpiredOrReusedTokenError | NotFoundError | UploadError | InternalError
| Uncaught.

Definition kind_of (e : error) : kind :=
  match e with
  | ApiError code m =>
      if (code =? 409)%nat then ConflictError
      else if (code =? 404)%nat then NotFoundError
      else if (code =? 400)%nat then
        if (m =? "Invalid username or password") || (m =? "Invalid current password")
        then AuthenticationError
        else if m =? "Invalid refresh token" then InvalidTokenError
        else if m =? "refresh token is expired or used" then ExpiredOrReusedTokenError
        else ValidationError
      else if (code =? 500)%nat then
        if (m =? "Failed to upload avatar") || (m =? "Failed to upload cover image")
        then UploadError else InternalError
      else Uncaught
  | JsonWebTokenError _ => InvalidTokenError
  | _ => Uncaught
  end.

(** ** The user record of the credential store *)

Module User.
Record t : Type := mk {
  _id : nat;
  username : string;
  email : string;
  password : string;          (* the stored hash *)
  fullname : string;
  avatar : string;
  coverImage : string;
  refreshToken : option string
}.

Definition set_refreshToken (v : option string) (u : t) : t :=
  mk (_id u) (username u) (email u) (password u) (fullname u)
     (avatar u) (coverImage u) v.

Definition set_password (p : string) (u : t) : t :=
  mk (_id u) (username u) (email u) p (fullname u)
     (avatar u) (coverImage u) (refreshToken u).

(** The document as the store hands it out; a cleared refresh token is
    an absent key. *)
Definition toObject (u : t) : list (string * Js.value) :=
  [ ("_id", Js.Num (_id u));
    ("username", Js.Str (username u));
    ("email", Js.Str (email u));
    ("password", Js.Str (password u));
    ("fullname", Js.Str (fullname u));
    ("avatar", Js.Str (avatar u));
    ("coverImage", Js.Str (coverImage u)) ]
  ++ match refreshToken u with
     | Some tok => [ ("refreshToken", Js.Str tok) ]
     | None => []
     end.

(** [.select("-a -b")]: the document without the listed paths. *)
Definition select_without (paths : list string)
  (doc : list (string * Js.value)) : list (string * Js.value) :=
  filter (fun kv => negb (existsb (String.eqb (fst kv)) paths)) doc.

End User.

(** ** Requests and responses *)

Module Body.
Record t : Type := mk {
  username : option string;
  email : option string;
  password : option string;
  fullname : option string;
  refreshToken : option string;
  newPassword : option string;
  confirmPassword : option string
}.
Definition empty : t := mk None None None None None None None.
End Body.

Module Cookies.
Record t : Type := mk { accessToken : option string; refreshToken : option string }.
Definition empty : t := mk None None.
End Cookies.

Module Files.
Record file : Type := mkfile { path : string }.
Record t : Type := mk {
  avatar : option (list file);
  coverImage : option (list file)
}.
End Files.

Record request : Type := mkRequest {
  body : Body.t;
  cookies : Cookies.t;
  files : option Files.t;
  user : option User.t       (* set by the authentication middleware *)
}.

Record CookieOptions : Type := mkOptions { httpOnly : bool; secure : bool }.

Inductive cookie_action : Type :=
| Cookie (name : string) (val : Js.value) (options : CookieOptions)
| ClearCookie (name : string) (options : CookieOptions).

(** [new ApiResponse(statusCode, data, message)] *)
Record ApiResponse : Type := mkApiResponse {
  statusCode : nat;
  data : Js.value;
  message : string
}.

Record response : Type := mkResponse {
  status : nat;
  cookie_actions : list cookie_action;
  json : ApiResponse
}.

(** ** The world and the handler monad *)

Inductive outcome (A : Type) : Type :=
| Ok (a : A)
| Throw (e : error).
Arguments Ok {A} a.
Arguments Throw {A} e.

(** Calls to collaborators, in the order they are made. *)
Inductive event : Type :=
| FindOne (username email : option string)
| FindById (id : option nat)
| FindByIdAndUpdate (id : nat)
| Create (username : string)
| Save (id : nat)
| Upload (localFilePath : option string).

Record tokens : Type := mkTokens { accessToken : string; refreshToken : string }.

Record world : Type := mkWorld {
  db : list User.t;                      (* the users collection *)
  log : list event;                      (* collaborator calls, latest first *)
  floating : list (outcome tokens)       (* promises nobody awaited, settled *)
}.

Definition M (A : Type) : Type := world -> outcome A * world.

Definition ret {A} (a : A) : M A := fun w => (Ok a, w).

Definition throw {A} (e : error) : M A := fun w => (Throw e, w).

Definition bind {A B} (m : M A) (k : A -> M B) : M B :=
  fun w =>
    match m w with
    | (Ok a, w') => k a w'
    | (Throw e, w') => (Throw e, w')
    end.

(** [try { body } catch (error) { handler(error) }] *)
Definition try_catch {A} (body : M A) (handler : error -> M A) : M A :=
  fun w =>
    match body w with
    | (Ok a, w') => (Ok a, w')
    | (Throw e, w') => handler e w'
    end.

Definition emit (ev : event) : M unit :=
  fun w => (Ok tt, mkWorld (db w) (ev :: log w) (floating w)).

Definition get_db : M (list User.t) := fun w => (Ok (db w), w).

Definition put_db (l : list User.t) : M unit :=
  fun w => (Ok tt, mkWorld l (log w) (floating w)).

(** A call of an [async] function whose promise is dropped: the call
    runs (its store effects happen), its result or rejection reaches
    nobody, the caller goes on. *)
Definition unawaited (m : M tokens) : M unit :=
  fun w =>
    let (o, w') := m w in
    (Ok tt, mkWorld (db w') (log w') (o :: floating w')).

Declare Scope handler_scope.
Delimit Scope handler_scope with handler.
Notation "x <- m ;; k" := (bind m (fun x => k))
  (at level 61, m at next level, right associativity) : handler_scope.
Notation "m ;; k" := (bind m (fun _ => k))
  (at level 61, right associativity) : handler_scope.
Open Scope handler_scope.

(** ** Collaborators *)

Module Upload.
(** The media host's answer to an accepted upload. *)
Record result : Type := mk { url : string }.
End Upload.

(** The code the controller calls and does not contain.
    - [generateAccessToken], [generateRefreshToken]: the methods of the
      user model that sign a token for the user; [None] when signing
      throws.
    - [jwt_verify]: [jwt.verify(token, REFRESH_TOKEN_SECRET)]; [inl m]
      when it throws (bad signature, expired), [inr d] when it returns
      a decoded token whose [_id] is [d].
    - [bcrypt_hash], [bcrypt_compare]: the one-way hash of the password
      and its check.
    - [uploadOnCloudinary]: [None] is the [null] it answers when the
      file was not hosted.
    - [omitUndefined]: what the document store does with a key of an
      update whose value is [undefined]; [false] when it writes the key
      (the field has no value afterwards), [true] when it drops the key
      from the update (the field keeps its value). *)
Class Collaborators : Type := {
  generateAccessToken : User.t -> option string;
  generateRefreshToken : User.t -> option string;
  jwt_verify : string -> string + option nat;
  bcrypt_hash : string -> string;
  bcrypt_compare : string -> string -> bool;
  uploadOnCloudinary : option string -> option Upload.result;
  omitUndefined : bool
}.

(** The hash scheme is sound when a plaintext verifies against a hash
    of a plaintext exactly when the two plaintexts are the same. *)
Definition sound_hash `{Collaborators} : Prop :=
  forall p q, bcrypt_compare p (bcrypt_hash q) = true <-> p = q.

Module NewUser.
(** The argument of [User.create] in [registerUser]. *)
Record t : Type := mk {
  email : option string;
  password : option string;
  fullname : option string;
  username : string;
  avatar : string;
  coverImage : string
}.
End NewUser.

Section Controller.

Context `{Collaborators}.

(** ** The credential store *)

Definition by_id (id : nat) (u : User.t) : bool := (User._id u =? id)%nat.

Definition lookup (id : nat) (l : list User.t) : option User.t :=
  find (by_id id) l.

Fixpoint replace (u : User.t) (l : list User.t) : list User.t :=
  match l with
  | [] => []
  | v :: r => if by_id (User._id u) v then u :: r else v :: replace u r
  end.

(** Modelled from the spec: the user model ([models/user.models.js]) and
    the document store behind it.  [User.findById(id)]: the record with
    that identity, [null] when there is none. *)
Definition User_findById (id : option nat) : M (option User.t) :=
  emit (FindById id) ;;
  l <- get_db ;;
  ret (match id with Some i => lookup i l | None => None end).

(** [{ $or: [{ username }, { email }] }]: an absent identifier matches
    no record, every record having a username and an email. *)
Definition matches_or (username email : option string) (u : User.t) : bool :=
  Js.strict_eq username (Some (User.username u))
  || Js.strict_eq email (Some (User.email u)).

(** Modelled from the spec: [User.findOne] of the user model; the first
    record the filter matches. *)
Definition User_findOne (username email : option string) : M (option User.t) :=
  emit (FindOne username email) ;;
  l <- get_db ;;
  ret (find (matches_or username email) l).

(** Modelled from the spec: [User.findByIdAndUpdate(id, { $set: {
    refreshToken: v } })] of the user model.  No validation runs.  The
    field takes the value given; given [undefined], it is cleared
    ("clear the user's persisted refreshToken") by a store that writes
    such a key, and kept by a store that drops it. *)
Definition User_findByIdAndUpdate_refreshToken (id : nat) (v : option string)
  : M (option User.t) :=
  emit (FindByIdAndUpdate id) ;;
  l <- get_db ;;
  match lookup id l with
  | Some u =>
      let written :=
        match v with
        | Some _ => User.set_refreshToken v u
        | None => if omitUndefined then u else User.set_refreshToken None u
        end in
      put_db (replace written l) ;; ret (Some u)
  | None => ret None
  end.

(** Modelled from the spec: [user.save({ validateBeforeSave: false })]
    of the user model.  The record is written as it is, no field is
    validated; a password that was assigned is hashed on the way
    ("hashed on save"), a password that was not is left alone. *)
Definition User_save (passwordModified : bool) (u : User.t) : M unit :=
  emit (Save (User._id u)) ;;
  l <- get_db ;;
  let stored :=
    if passwordModified
    then User.set_password (bcrypt_hash (User.password u)) u else u in
  match lookup (User._id u) l with
  | Some _ => put_db (replace stored l)
  | None => throw (StoreError "No document found for save")
  end.

Definition fresh_id (l : list User.t) : nat := S (list_max (map User._id l)).

(** Modelled from the spec: [User.create] of the user model.  A record
    has a username, an email, a password and a full name; username and
    email are unique; the password is stored hashed; a new record has no
    refresh token. *)
Definition User_create (d : NewUser.t) : M User.t :=
  emit (Create (NewUser.username d)) ;;
  l <- get_db ;;
  match NewUser.email d, NewUser.password d, NewUser.fullname d with
  | Some em, Some pw, Some fn =>
      if existsb (fun u => (User.username u =? NewUser.username d)
                           || (User.email u =? em)) l
      then throw (StoreError "duplicate key")
      else
        let u := User.mk (fresh_id l) (NewUser.username d) em (bcrypt_hash pw)
                   fn (NewUser.avatar d) (NewUser.coverImage d) None in
        put_db (l ++ [u]) ;; ret u
  | _, _, _ => throw (StoreError "User validation failed")
  end.

(** Modelled from the spec: [user.isPasswordCorrect(password)] of the
    user model, the check of a plaintext against the stored hash; the
    hash library refuses an absent plaintext. *)
Definition isPasswordCorrect (u : User.t) (password : option string) : M bool :=
  match password with
  | Some p => ret (bcrypt_compare p (User.password u))
  | None => throw (HashError "data and hash arguments required")
  end.

Definition upload (localFilePath : option string) : M (option Upload.result) :=
  emit (Upload localFilePath) ;;
  ret (uploadOnCloudinary localFilePath).

(** A property or method access [x.p]: a [TypeError] when [x] is [null]
    or [undefined]. *)
Definition deref {A} (x : option A) : M A :=
  match x with
  | Some a => ret a
  | None => throw (TypeError "Cannot read properties of null or undefined")
  end.

Definition signed (tok : option string) : M string :=
  match tok with
  | Some t => ret t
  | None => throw (JsonWebTokenError "signing failed")
  end.

(** ** generateTokens *)

Definition tokens_failed : error :=
  ApiError 500 "something went wrong while generating tokens".

Definition generateTokens (userId : nat) : M tokens :=
  try_catch
    (user <- User_findById (Some userId) ;;
     u <- deref user ;;
     accessToken <- signed (generateAccessToken u) ;;
     refreshToken <- signed (generateRefreshToken u) ;;
     User_save false (User.set_refreshToken (Some refreshToken) u) ;;
     ret (mkTokens accessToken refreshToken))
    (fun _ => throw tokens_failed).

(** ** registerUser *)

(** [[username, email, password, fullname].some((field) =>
    field?.trim() === "")] *)
Definition some_field_blank (b : Body.t) : bool :=
  existsb (fun field => Js.strict_eq (Js.opt_trim field) (Some ""))
    [Body.username b; Body.email b; Body.password b; Body.fullname b].

(** [files.k && files.k.length > 0] then [files.k[0]?.path] *)
Definition first_path (k : option (list Files.file)) : option string :=
  match k with
  | Some (f :: _) => Some (Files.path f)
  | _ => None
  end.

Definition local_path (req : request) (k : Files.t -> option (list Files.file))
  : option string :=
  match files req with
  | Some fs => first_path (k fs)
  | None => None
  end.

Definition or_empty (v : option string) : string :=
  match Js.or v (Some "") with
  | Some s => s
  | None => ""
  end.

Definition registerUser (req : request) : M response :=
  let username := Body.username (body req) in
  let email := Body.email (body req) in
  let password := Body.password (body req) in
  let fullname := Body.fullname (body req) in
  if some_field_blank (body req)
  then throw (ApiError 400 "All fields are required")
  else
    existedUser <- User_findOne username email ;;
    match existedUser with
    | Some _ => throw (ApiError 409 "User already exists")
    | None =>
        let avatarLocalPath := local_path req Files.avatar in
        let coverImageLocalPath := local_path req Files.coverImage in
        if negb (Js.truthy avatarLocalPath)
        then throw (ApiError 400 "Avatar is required")
        else
          avatar <- upload avatarLocalPath ;;
          coverImage <- upload coverImageLocalPath ;;
          match avatar with
          | None => throw (ApiError 500 "Failed to upload avatar")
          | Some av =>
              name <- deref username ;;
              user <- User_create
                        (NewUser.mk email password fullname (Js.toLowerCase name)
                           (Upload.url av)
                           (or_empty (option_map Upload.url coverImage))) ;;
              found <- User_findById (Some (User._id user)) ;;
              match found with
              | None => throw (ApiError 500 "Failed to create user")
              | Some u =>
                  let createdUser :=
                    User.select_without ["password"; "refreshToken"] (User.toObject u) in
                  ret (mkResponse 201 []
                         (mkApiResponse 200 (Js.Obj createdUser) "User created successfully"))
              end
          end
    end.

(** ** loginUser *)

Definition options : CookieOptions := mkOptions true true.

Definition sanitized (found : option User.t) : Js.value :=
  match found with
  | Some u =>
      Js.Obj (User.select_without ["password"; "refreshToken"] (User.toObject u))
  | None => Js.Null
  end.

Definition loginUser (req : request) : M response :=
  let username := Body.username (body req) in
  let email := Body.email (body req) in
  let password := Body.password (body req) in
  if negb (Js.truthy username) && negb (Js.truthy email)
  then throw (ApiError 400 "either username or email is required")
  else if negb (Js.truthy password)
  then throw (ApiError 400 "password is required")
  else
    found <- User_findOne username email ;;
    match found with
    | None => throw (ApiError 404 "User not found")
    | Some existedUser =>
        correct <- isPasswordCorrect existedUser password ;;
        if negb correct
        then throw (ApiError 400 "Invalid username or password")
        else
          toks <- generateTokens (User._id existedUser) ;;
          loggedInUser <- User_findById (Some (User._id existedUser)) ;;
          ret (mkResponse 200
                 [ Cookie "accessToken" (Js.Str (accessToken toks)) options;
                   Cookie "refreshToken" (Js.Str (refreshToken toks)) options ]
                 (mkApiResponse 200
                    (Js.Obj [ ("user", sanitized loggedInUser);
                              ("accessToken", Js.Str (accessToken toks));
                              ("refreshToken", Js.Str (refreshToken toks)) ])
                    "user logged in successfully"))
    end.

(** ** logoutUser *)

Definition logoutUser (req : request) : M response :=
  u <- deref (user req) ;;
  User_findByIdAndUpdate_refreshToken (User._id u) None ;;
  ret (mkResponse 200
         [ ClearCookie "accessToken" options; ClearCookie "refreshToken" options ]
         (mkApiResponse 200 (Js.Obj []) "User logged out successfully")).

(** ** refreshAcessToken *)

Definition verified (tok : string) : M (option nat) :=
  match jwt_verify tok with
  | inl m => throw (JsonWebTokenError m)
  | inr decodedToken => ret decodedToken
  end.

(** [generateTokens(user._id)] is called without [await]: what is
    destructured is the promise, which has neither an [accessToken] nor
    a [refreshToken] property, so both names are [undefined]. *)
Definition refreshAcessToken (req : request) : M response :=
  let incomingRefreshToken :=
    Js.or (Cookies.refreshToken (cookies req)) (Body.refreshToken (body req)) in
  if negb (Js.truthy incomingRefreshToken)
  then throw (ApiError 400 "Refresh token is required")
  else
    decodedToken <- verified (or_empty incomingRefreshToken) ;;
    found <- User_findById decodedToken ;;
    match found with
    | None => throw (ApiError 400 "Invalid refresh token")
    | Some u =>
        if negb (Js.strict_eq incomingRefreshToken (User.refreshToken u))
        then throw (ApiError 400 "refresh token is expired or used")
        else
          unawaited (generateTokens (User._id u)) ;;
          let accessToken := Js.Undefined in
          let refreshToken := Js.Undefined in
          ret (mkResponse 200
                 [ Cookie "accessToken" accessToken options;
                   Cookie "refreshToken" refreshToken options ]
                 (mkApiResponse 200
                    (Js.Obj [ ("accessToken", accessToken);
                              ("refreshToken", refreshToken) ])
                    "Access Token refreshed"))
    end.

(** ** changeCurrentPassword *)

Definition changeCurrentPassword (req : request) : M response :=
  let password := Body.password (body req) in
  let newPassword := Body.newPassword (body req) in
  let confirmPassword := Body.confirmPassword (body req) in
  if negb (Js.strict_eq newPassword confirmPassword)
  then throw (ApiError 400 "New password and confirm password do not match")
  else
    new <- deref newPassword ;;
    if negb (Js.truthy (Some (Js.trim new)))
    then throw (ApiError 400 "New password is required,cannot be empty")
    else
      found <- User_findById (option_map User._id (user req)) ;;
      u <- deref found ;;
      correct <- isPasswordCorrect u password ;;
      if negb correct
      then throw (ApiError 400 "Invalid current password")
      else
        User_save true (User.set_password new u) ;;
        ret (mkResponse 200 []
               (mkApiResponse 200 (Js.Obj []) "Password changed successfully")).

End Controller.

(** ** Worlds and answers the properties speak of *)

(** The world after one more collaborator call. *)
Definition called (ev : event) (w : world) : world :=
  mkWorld (db w) (ev :: log w) (floating w).

(** The answer of a login that found [found] and issued [a] and [r]. *)
Definition login_response (found : option User.t) (a r : string) : response :=
  mkResponse 200
    [ Cookie "accessToken" (Js.Str a) (mkOptions true true);
      Cookie "refreshToken" (Js.Str r) (mkOptions true true) ]
    (mkApiResponse 200
       (Js.Obj [ ("user", sanitized found);
                 ("accessToken", Js.Str a);
                 ("refreshToken", Js.Str r) ])
       "user logged in successfully").

(** The status of the answer, when there is one. *)
Definition status_of (o : outcome response) : option nat :=
  match o with
  | Ok resp => Some (status resp)
  | Throw _ => None
  end.

(** The refresh token a request presents:
    [req.cookies.refreshToken || req.body.refreshToken]. *)
Definition incoming (req : request) : option string :=
  Js.or (Cookies.refreshToken (cookies req)) (Body.refreshToken (body req)).

(** The answer of a refresh that passed every check. *)
Definition refresh_response : response :=
  mkResponse 200
    [ Cookie "accessToken" Js.Undefined (mkOptions true true);
      Cookie "refreshToken" Js.Undefined (mkOptions true true) ]
    (mkApiResponse 200
       (Js.Obj [ ("accessToken", Js.Undefined); ("refreshToken", Js.Undefined) ])
       "Access Token refreshed").

(** ** A small instance of the collaborators, for examples *)

Module Demo.

Definition collaborators : Collaborators := {|
  generateAccessToken := fun u => Some ("access:" ++ User.username u);
  generateRefreshToken := fun u => Some ("refresh:" ++ User.username u);
  jwt_verify := fun tok =>
    if tok =? "refresh:ava" then inr (Some 1) else inl "invalid signature";
  bcrypt_hash := fun p => "hash:" ++ p;
  bcrypt_compare := fun p h => h =? "hash:" ++ p;
  uploadOnCloudinary := fun localFilePath =>
    match localFilePath with
    | Some p => if p =? "tmp/avatar.png"
                then Some (Upload.mk "https://media.example/avatar.png")
                else None
    | None => None
    end;
  omitUndefined := false
|}.

(** The user of the specification's example, registered and logged out. *)
Definition ava : User.t :=
  User.mk 1 "ava" "a@x.com" "hash:p1" "Ava A"
    "https://media.example/avatar.png" "" None.

Definition world0 : world := mkWorld [] [] [].
Definition world1 : world := mkWorld [ava] [] [].

Definition register_ava : request :=
  mkRequest
    (Body.mk (Some "Ava") (Some "a@x.com") (Some "p1") (Some "Ava A") None None None)
    Cookies.empty
    (Some (Files.mk (Some [Files.mkfile "tmp/avatar.png"]) None))
    None.

Definition register_refused : request :=
  mkRequest
    (Body.mk (Some "Ava") (Some "a@x.com") (Some "p1") (Some "Ava A") None None None)
    Cookies.empty
    (Some (Files.mk (Some [Files.mkfile "tmp/broken.png"]) None))
    None.

Definition login_ava : request :=
  mkRequest
    (Body.mk (Some "ava") None (Some "p1") None None None None)
    Cookies.empty None None.

(** The same user, logged in. *)
Definition ava_in : User.t := User.set_refreshToken (Some "refresh:ava") ava.

(** The world after [login_ava] in [world1]. *)
Definition world2 : world :=
  mkWorld [ava_in]
    [FindById (Some 1); Save 1; FindById (Some 1); FindOne (Some "ava") None] [].

Definition login_wrong : request :=
  mkRequest
    (Body.mk (Some "ava") None (Some "p2") None None None None)
    Cookies.empty None None.

Definition logout_ava : request :=
  mkRequest Body.empty
    (Cookies.mk (Some "access:ava") (Some "refresh:ava")) None (Some ava_in).

Definition refresh_ava : request :=
  mkRequest Body.empty (Cookies.mk None (Some "refresh:ava")) None None.

Definition refresh_none : request :=
  mkRequest Body.empty Cookies.empty None None.

Definition refresh_forged : request :=
  mkRequest
    (Body.mk None None None None (Some "forged") None None)
    Cookies.empty None None.

Definition change_password (cur new confirm : string) : request :=
  mkRequest
    (Body.mk None None (Some cur) None None (Some new) (Some confirm))
    Cookies.empty None (Some ava).

End Demo.

(** ** updateAvatar and updateCoverImage *)

(** A request that went through the single-file upload middleware: the
    request and its [req.file]. *)
Record file_request : Type := mkFileRequest {
  request_of : request;
  file : option Files.file
}.

(** What the document store does when [findByIdAndUpdate] is handed
    [undefined] for the identity, which the controller does for a
    request that carries no user. *)
Class StoreEdge : Type := {
  update_without_id : (User.t -> User.t) -> M (option User.t)
}.

Definition set_avatar (v : string) (u : User.t) : User.t :=
  User.mk (User._id u) (User.username u) (User.email u) (User.password u)
    (User.fullname u) v (User.coverImage u) (User.refreshToken u).

Definition set_coverImage (v : string) (u : User.t) : User.t :=
  User.mk (User._id u) (User.username u) (User.email u) (User.password u)
    (User.fullname u) (User.avatar u) v (User.refreshToken u).

Section ProfileImages.

Context `{Collaborators} `{StoreEdge}.

(** Modelled from the spec: [User.findByIdAndUpdate(id, { $set }, { new:
    true })] of the user model, for a [$set] of defined values: the
    record is written without validation and the answer is the record
    as written, [null] when the identity has no record. *)
Definition User_findByIdAndUpdate_new (id : option nat) (set : User.t -> User.t)
  : M (option User.t) :=
  match id with
  | Some i =>
      emit (FindByIdAndUpdate i) ;;
      l <- get_db ;;
      match lookup i l with
      | Some u => put_db (replace (set u) l) ;; ret (Some (set u))
      | None => ret None
      end
  | None => update_without_id set
  end.

(** [req.file?.path] *)
Definition file_path (req : file_request) : option string :=
  option_map Files.path (file req).

Definition updateAvatar (req : file_request) : M response :=
  let avatarLocalPath := file_path req in
  if negb (Js.truthy avatarLocalPath)
  then throw (ApiError 400 "Avatar is required")
  else
    avatar <- upload avatarLocalPath ;;
    match avatar with
    | None => throw (ApiError 500 "Failed to upload avatar")
    | Some av =>
        if negb (Js.truthy (Some (Upload.url av)))
        then throw (ApiError 500 "Failed to upload avatar")
        else
          found <- User_findByIdAndUpdate_new
                     (option_map User._id (user (request_of req)))
                     (set_avatar (Upload.url av)) ;;
          ret (mkResponse 200 []
                 (mkApiResponse 200 (sanitized found) "Avatar updated successfully"))
    end.

Definition updateCoverImage (req : file_request) : M response :=
  let coverImageLocalPath := file_path req in
  if negb (Js.truthy coverImageLocalPath)
  then throw (ApiError 400 "cover image is required")
  else
    coverImage <- upload coverImageLocalPath ;;
    match coverImage with
    | None => throw (ApiError 500 "Failed to upload cover image")
    | Some cov =>
        if negb (Js.truthy (Some (Upload.url cov)))
        then throw (ApiError 500 "Failed to upload cover image")
        else
          found <- User_findByIdAndUpdate_new
                     (option_map User._id (user (request_of req)))
                     (set_coverImage (Upload.url cov)) ;;
          ret (mkResponse 200 []
                 (mkApiResponse 200 (sanitized found)
                    "cover image updated successfully"))
    end.

(** ** The controller as a whole *)

(** A request to one of the routes of the controller. *)
Inductive call : Type :=
| Register (req : request)
| Login (req : request)
| Logout (req : request)
| Refresh (req : request)
| ChangePassword (req : request)
| UpdateAvatar (req : file_request)
| UpdateCoverImage (req : file_request).

Definition handle (c : call) : M response :=
  match c with
  | Register req => registerUser req
  | Login req => loginUser req
  | Logout req => logoutUser req
  | Refresh req => refreshAcessToken req
  | ChangePassword req => changeCurrentPassword req
  | UpdateAvatar req => updateAvatar req
  | UpdateCoverImage req => updateCoverImage req
  end.

(** The world after a sequence of requests, served one after the other,
    answered or not. *)
Fixpoint serve (cs : list call) (w : world) : world :=
  match cs with
  | [] => w
  | c :: rest => serve rest (snd (handle c w))
  end.

(** The image routes are mounted behind the authentication middleware:
    their requests carry a user. *)
Definition carries_user (c : call) : bool :=
  match c with
  | UpdateAvatar req | UpdateCoverImage req =>
      match user (request_of req) with Some _ => true | None => false end
  | _ => true
  end.

End ProfileImages.

(** ** What two states of the store have in common *)

(** The store [l'] holds the records of [l], in the same places, each
    related by [R] to what it was, and after them the records that are
    new. *)
Definition grown (R : User.t -> User.t -> Prop) (l l' : list User.t) : Prop :=
  exists l1 l2, l' = (l1 ++ l2)%list /\ Forall2 R l l1.

Definition same_person (u v : User.t) : Prop :=
  User._id u = User._id v
  /\ User.username u = User.username v
  /\ User.email u = User.email v
  /\ User.fullname u = User.fullname v.

Definition same_but_refreshToken (u v : User.t) : Prop :=
  User.set_refreshToken None u = User.set_refreshToken None v.

Definition same_but_password (u v : User.t) : Prop :=
  User.set_password "" u = User.set_password "" v.

Definition same_but_avatar (u v : User.t) : Prop :=
  set_avatar "" u = set_avatar "" v.

Definition same_but_coverImage (u v : User.t) : Prop :=
  set_coverImage "" u = set_coverImage "" v.

(** A handler keeps [P] when [P] relates the store it finds to the
    store it leaves, whatever the world. *)
Definition keeps {A} (P : list User.t -> list User.t -> Prop) (m : M A) : Prop :=
  forall w, P (db w) (db (snd (m w))).

(** A handler is read-only when it leaves the store as it found it; it
    is all-or-nothing when it does so each time it throws; it always
    answers when it never throws. *)
Definition readonly {A} (m : M A) : Prop :=
  forall w, db (snd (m w)) = db w.

Definition all_or_nothing {A} (m : M A) : Prop :=
  forall w e, fst (m w) = Throw e -> db (snd (m w)) = db w.

Definition always_answers {A} (m : M A) : Prop :=
  forall w, exists a, fst (m w) = Ok a.

(** ** More sample requests *)

Module Sample.

(** A store that answers an update without identity with [null] and
    writes nothing. *)
Definition store_edge : StoreEdge := {|
  update_without_id := fun _ => ret None
|}.

(** A second registered user. *)
Definition bo : User.t :=
  User.mk 2 "bo" "b@x.com" "hash:p9" "Bo B"
    "https://media.example/bo.png" "" (Some "refresh:bo").

Definition world3 : world := mkWorld [Demo.ava_in; bo] [] [].

Definition new_avatar : file_request :=
  mkFileRequest
    (mkRequest Body.empty Cookies.empty None (Some Demo.ava_in))
    (Some (Files.mkfile "tmp/avatar.png")).

Definition no_file : file_request :=
  mkFileRequest
    (mkRequest Body.empty Cookies.empty None (Some Demo.ava_in)) None.

Definition refused_file : file_request :=
  mkFileRequest
    (mkRequest Body.empty Cookies.empty None (Some Demo.ava_in))
    (Some (Files.mkfile "tmp/broken.png")).

Definition register_again : request :=
  mkRequest
    (Body.mk (Some "ava") (Some "other@x.com") (Some "p7") (Some "Ava Two")
       None None None)
    Cookies.empty None None.

Definition register_nameless : request :=
  mkRequest
    (Body.mk None (Some "new@x.com") (Some "p7") (Some "No Name") None None None)
    Cookies.empty
    (Some (Files.mk (Some [Files.mkfile "tmp/avatar.png"]) None))
    None.

(** Collaborators whose refresh-token signing fails. *)
Definition unsigned : Collaborators := {|
  generateAccessToken := fun u => Some ("access:" ++ User.username u);
  generateRefreshToken := fun _ => None;
  jwt_verify := @jwt_verify Demo.collaborators;
  bcrypt_hash := @bcrypt_hash Demo.collaborators;
  bcrypt_compare := @bcrypt_compare Demo.collaborators;
  uploadOnCloudinary := @uploadOnCloudinary Demo.collaborators;
  omitUndefined := false
|}.

(** Collaborators that sign a new refresh token each time: the token
    after [t] is [t] with a mark. *)
Definition rotating : Collaborators := {|
  generateAccessToken := fun u => Some ("access:" ++ User.username u);
  generateRefreshToken := fun u =>
    Some match User.refreshToken u with
         | Some t => t ++ "+"
         | None => "refresh:" ++ User.username u
         end;
  jwt_verify := fun tok =>
    if prefix "refresh:ava" tok then inr (Some 1) else inl "invalid signature";
  bcrypt_hash := @bcrypt_hash Demo.collaborators;
  bcrypt_compare := @bcrypt_compare Demo.collaborators;
  uploadOnCloudinary := @uploadOnCloudinary Demo.collaborators;
  omitUndefined := false
|}.

(** Collaborators over a store that drops the keys of an update whose
    value is [undefined]. *)
Definition dropping : Collaborators := {|
  generateAccessToken := @generateAccessToken Demo.collaborators;
  generateRefreshToken := @generateRefreshToken Demo.collaborators;
  jwt_verify := @jwt_verify Demo.collaborators;
  bcrypt_hash := @bcrypt_hash Demo.collaborators;
  bcrypt_compare := @bcrypt_compare Demo.collaborators;
  uploadOnCloudinary := @uploadOnCloudinary Demo.collaborators;
  omitUndefined := true
|}.

Definition register_cy : request :=
  mkRequest
    (Body.mk (Some "Cy") (Some "c@x.com") (Some "p3") (Some "Cy C") None None None)
    Cookies.empty
    (Some (Files.mk (Some [Files.mkfile "tmp/avatar.png"]) None))
    None.

Definition refresh_both (cookie body_token : string) : request :=
  mkRequest
    (Body.mk None None None None (Some body_token) None None)
    (Cookies.mk None (Some cookie)) None None.

End Sample.

(** * The client *)

(** ** PlaylistService *)

Module PlaylistService.

Inductive verb : Type := GET | PATCH | POST.

(** A call of the HTTP client: the method, the URL handed to it and the
    data sent, if any. *)
Record http_call : Type := mk {
  method : verb;
  url : string;
  payload : option (list (string * Js.value))
}.

Definition getPlaylists (userId : string) : http_call :=
  mk GET ("/playlists/" ++ userId ++ "/all-playlists") None.

Definition getPlaylist (playlistId : string) : http_call :=
  mk GET ("/playlists/" ++ playlistId) None.

Definition addVideoToPlaylist (videoId playlistId : string) : http_call :=
  mk PATCH ("/playlists/" ++ playlistId ++ "/" ++ videoId ++ "/add") None.

Definition create (name : string) : http_call :=
  mk POST "/playlists/create"
    (Some [ ("name", Js.Str name); ("description", Js.Str "") ]).

(** Whether a string holds a slash. *)
Fixpoint has_slash (s : string) : bool :=
  match s with
  | EmptyString => false
  | String c r => (c =? "/")%char || has_slash r
  end.

End PlaylistService.

(** ** SearchBar *)

Module SearchBar.

(** What the component shows for the text it holds: the value of the
    input, whether the clear button has the class [block] (and not
    [hidden]), whether the search button is disabled. *)
Record view : Type := mkView {
  value : string;
  clear_shown : bool;
  search_disabled : bool
}.

Definition render (input : string) : view :=
  mkView input (Js.truthy (Some input)) (negb (Js.truthy (Some input))).

Inductive event : Type :=
| Input (text : string)        (* typing: [onInput] with the new value *)
| ClickClear                   (* the button with id [cross] *)
| ClickSearch.                 (* the search button *)

(** The text held and the alerts shown so far, latest first. *)
Record state : Type := mkState {
  input : string;
  alerts : list string
}.

Definition initial : state := mkState "" [].

(** A click on a disabled button reaches no handler. *)
Definition step (s : state) (e : event) : state :=
  match e with
  | Input text => mkState text (alerts s)
  | ClickClear => mkState "" (alerts s)
  | ClickSearch =>
      if search_disabled (render (input s)) then s
      else mkState (input s) (("You searched for " ++ input s) :: alerts s)
  end.

Definition run (es : list event) : state := fold_left step es initial.

End SearchBar.

(** * Properties *)

(** ** Facts about strings and the store *)

Lemma strict_eq_spec (a b : option string) :
  Js.strict_eq a b = true <-> a = b.
Proof.
  destruct a as [x|], b as [y|]; simpl; split; intros E;
    try discriminate; try reflexivity.
  - apply String.eqb_eq in E. congruence.
  - apply String.eqb_eq. congruence.
Qed.

Lemma strict_eq_false (a b : option string) :
  a <> b -> Js.strict_eq a b = false.
Proof.
  intros Hne. destruct (Js.strict_eq a b) eqn:E; [|reflexivity].
  apply strict_eq_spec in E. contradiction.
Qed.

Lemma truthy_some (s : string) : s <> "" -> Js.truthy (Some s) = true.
Proof.
  intros Hs. simpl. apply negb_true_iff. apply String.eqb_neq. exact Hs.
Qed.

Lemma nonblank_not_guarded (v : option string) :
  (forall s, v = Some s -> Js.trim s <> "") ->
  Js.strict_eq (Js.opt_trim v) (Some "") = false.
Proof.
  intros Hv. destruct v as [s|]; simpl; [|reflexivity].
  apply String.eqb_neq. apply Hv. reflexivity.
Qed.

Lemma findOne_none (l : list User.t) (un em : option string) :
  (forall u, In u l -> un <> Some (User.username u) /\ em <> Some (User.email u)) ->
  find (matches_or un em) l = None.
Proof.
  intros Hl. induction l as [|v r IH]; simpl; [reflexivity|].
  destruct (Hl v (or_introl eq_refl)) as [Hu He].
  unfold matches_or at 1.
  rewrite (strict_eq_false _ _ Hu), (strict_eq_false _ _ He). simpl.
  apply IH. intros u Hu'. apply Hl. right. exact Hu'.
Qed.

Lemma lookup_fresh (l : list User.t) (i : nat) :
  list_max (map User._id l) < i -> lookup i l = None.
Proof.
  unfold lookup. induction l as [|v r IH]; simpl; intros Hlt; [reflexivity|].
  unfold by_id at 1.
  destruct (Nat.eqb_spec (User._id v) i) as [E|E]; [lia|].
  apply IH. lia.
Qed.

Lemma lookup_app_new (l : list User.t) (u : User.t) :
  lookup (User._id u) l = None -> lookup (User._id u) (l ++ [u]) = Some u.
Proof.
  unfold lookup. induction l as [|v r IH]; simpl.
  - intros _. unfold by_id. rewrite Nat.eqb_refl. reflexivity.
  - destruct (by_id (User._id u) v); [discriminate|exact IH].
Qed.

Lemma lookup_id (l : list User.t) (i : nat) (u : User.t) :
  lookup i l = Some u -> User._id u = i.
Proof.
  unfold lookup. intros Hf. apply find_some in Hf. destruct Hf as [_ Hid].
  unfold by_id in Hid. apply Nat.eqb_eq. exact Hid.
Qed.

Lemma lookup_replace (l : list User.t) (u v : User.t) :
  lookup (User._id v) l = Some u -> lookup (User._id v) (replace v l) = Some v.
Proof.
  unfold lookup. induction l as [|x r IH]; simpl; [discriminate|].
  destruct (by_id (User._id v) x) eqn:E; intros Hf.
  - simpl. unfold by_id. rewrite Nat.eqb_refl. reflexivity.
  - simpl. rewrite E. apply IH. exact Hf.
Qed.

Lemma replace_same (l : list User.t) (u : User.t) :
  lookup (User._id u) l = Some u -> replace u l = l.
Proof.
  unfold lookup. induction l as [|x r IH]; simpl; [reflexivity|].
  destruct (by_id (User._id u) x); intros Hf.
  - congruence.
  - rewrite (IH Hf). reflexivity.
Qed.

Example trim_strips_both_ends : Js.trim "  ava  " = "ava".
Proof. reflexivity. Qed.

Example trim_keeps_inner_space : Js.trim " Ava A " = "Ava A".
Proof. reflexivity. Qed.

Example trim_blank : Js.trim "   " = "".
Proof. reflexivity. Qed.

Example toLowerCase_name : Js.toLowerCase "Ava-01" = "ava-01".
Proof. reflexivity. Qed.

(** ** Registration *)

Section Registration.

Context `{Collaborators}.

Lemma some_field_blank_true (b : Body.t) (s : string) :
  In (Some s) [Body.username b; Body.email b; Body.password b; Body.fullname b] ->
  Js.trim s = "" ->
  some_field_blank b = true.
Proof.
  intros Hin Hblank. unfold some_field_blank.
  apply existsb_exists. exists (Some s). split; [exact Hin|].
  simpl. rewrite Hblank. reflexivity.
Qed.

Lemma some_field_blank_false (b : Body.t) :
  (forall s, In (Some s) [Body.username b; Body.email b; Body.password b; Body.fullname b] ->
             Js.trim s <> "") ->
  some_field_blank b = false.
Proof.
  intros Hall. unfold some_field_blank. simpl.
  rewrite !nonblank_not_guarded; [reflexivity| | | |];
    intros s E; apply Hall; rewrite <- E; simpl; auto.
Qed.

(** C4.  A register request one of whose four text fields is a string
    that is blank after trimming is rejected with the ValidationError
    "All fields are required" (status 400), and nothing has happened by
    then: the world is the one the request found, so there was no
    duplicate check, no upload and no user creation. *)
Theorem registerUser_blank_field_rejected (req : request) (w : world) (s : string) :
  In (Some s) [Body.username (body req); Body.email (body req);
               Body.password (body req); Body.fullname (body req)] ->
  Js.trim s = "" ->
  registerUser req w = (Throw (ApiError 400 "All fields are required"), w)
  /\ kind_of (ApiError 400 "All fields are required") = ValidationError.
Proof.
  intros Hin Hblank. split; [|reflexivity].
  unfold registerUser.
  rewrite (some_field_blank_true _ _ Hin Hblank). reflexivity.
Qed.

(** C10.  There is a register request whose password is absent from the
    body which the blank-field guard does not reject: [field?.trim()] of
    an absent field is [undefined], which is not the empty string.  The
    request goes on to the duplicate check, whatever the store holds. *)
Theorem registerUser_absent_password_not_rejected :
  exists req : request,
    Body.password (body req) = None
    /\ some_field_blank (body req) = false
    /\ forall w : world,
         fst (registerUser req w) <> Throw (ApiError 400 "All fields are required")
         /\ In (FindOne (Body.username (body req)) (Body.email (body req)))
               (log (snd (registerUser req w))).
Proof.
  exists (mkRequest
            (Body.mk (Some "ava") (Some "a@x.com") None (Some "Ava A") None None None)
            Cookies.empty None None).
  split; [reflexivity|]. split; [reflexivity|].
  intros w. unfold registerUser, User_findOne, bind, emit, get_db, ret. simpl.
  destruct (find _ (db w)); simpl; split; try discriminate; auto.
Qed.

(** C8.  A registration that has passed validation, the duplicate check
    and the avatar-file check: when the avatar upload yields nothing the
    request fails with the UploadError "Failed to upload avatar" (status
    500) and no user is created; when it yields a URL and the
    cover-image upload yields nothing, the user is created all the same,
    with the empty string as cover image, and the answer has status
    201. *)
Theorem registerUser_upload_outcomes
  (req : request) (w : world) (un em pw fn p : string) :
  Body.username (body req) = Some un ->
  Body.email (body req) = Some em ->
  Body.password (body req) = Some pw ->
  Body.fullname (body req) = Some fn ->
  Js.trim un <> "" -> Js.trim em <> "" -> Js.trim pw <> "" -> Js.trim fn <> "" ->
  (forall u, In u (db w) ->
     User.username u <> un /\ User.email u <> em
     /\ User.username u <> Js.toLowerCase un) ->
  local_path req Files.avatar = Some p -> p <> "" ->
  match uploadOnCloudinary (Some p) with
  | None =>
      fst (registerUser req w) = Throw (ApiError 500 "Failed to upload avatar")
      /\ kind_of (ApiError 500 "Failed to upload avatar") = UploadError
      /\ db (snd (registerUser req w)) = db w
  | Some av =>
      uploadOnCloudinary (local_path req Files.coverImage) = None ->
      (exists resp, fst (registerUser req w) = Ok resp /\ status resp = 201)
      /\ db (snd (registerUser req w))
         = (db w ++ [ User.mk (fresh_id (db w)) (Js.toLowerCase un) em
                        (bcrypt_hash pw) fn (Upload.url av) "" None ])%list
  end.
Proof.
  intros Hun Hem Hpw Hfn Tun Tem Tpw Tfn Hfree Hpath Hp.
  assert (Hguard : some_field_blank (body req) = false).
  { apply some_field_blank_false. rewrite Hun, Hem, Hpw, Hfn.
    intros s [E|[E|[E|[E|[]]]]]; inversion E; subst; assumption. }
  assert (Hnone : find (matches_or (Some un) (Some em)) (db w) = None).
  { apply findOne_none. intros u Hu. destruct (Hfree u Hu) as (A & B & _).
    split; congruence. }
  assert (Hdup : existsb (fun u => (User.username u =? Js.toLowerCase un)
                                   || (User.email u =? em)) (db w) = false).
  { destruct (existsb _ (db w)) eqn:E; [|reflexivity].
    apply existsb_exists in E. destruct E as (u & Hu & Hm).
    destruct (Hfree u Hu) as (_ & B & C).
    apply orb_true_iff in Hm. destruct Hm as [Hm|Hm]; apply String.eqb_eq in Hm;
      contradiction. }
  unfold registerUser. rewrite Hguard, Hun, Hem, Hpw, Hfn, Hpath.
  rewrite (truthy_some _ Hp).
  unfold User_findOne, upload, bind, emit, get_db, ret, throw. simpl.
  rewrite Hnone. simpl.
  destruct (uploadOnCloudinary (Some p)) as [av|] eqn:Hav; simpl.
  - intros Hcov. rewrite Hcov. unfold User_create, User_findById, bind, emit, get_db, put_db, ret, throw. simpl.
    rewrite Hdup. simpl.
    rewrite (lookup_app_new (db w) (User.mk (fresh_id (db w)) _ _ _ _ _ _ _)).
    + simpl. split; [eexists; split; reflexivity | reflexivity].
    + simpl. apply lookup_fresh. unfold fresh_id. lia.
  - repeat split; reflexivity.
Qed.

End Registration.

Lemma registerUser_blank_field_rejected_witness :
  let req := mkRequest
               (Body.mk (Some "ava") (Some "a@x.com") (Some "   ") (Some "Ava A")
                  None None None)
               Cookies.empty None None in
  @registerUser Demo.collaborators req Demo.world1
    = (Throw (ApiError 400 "All fields are required"), Demo.world1)
  /\ kind_of (ApiError 400 "All fields are required") = ValidationError.
Proof.
  apply (@registerUser_blank_field_rejected Demo.collaborators _ Demo.world1 "   ").
  - simpl. right. right. left. reflexivity.
  - reflexivity.
Defined.

(** The registration of the specification's example, without a cover
    image, and the same with an avatar the media host refuses. *)
Lemma registerUser_upload_outcomes_witness :
  ((exists resp,
      fst (@registerUser Demo.collaborators Demo.register_ava Demo.world0) = Ok resp
      /\ status resp = 201)
   /\ db (snd (@registerUser Demo.collaborators Demo.register_ava Demo.world0))
      = [Demo.ava])
  /\ fst (@registerUser Demo.collaborators Demo.register_refused Demo.world0)
     = Throw (ApiError 500 "Failed to upload avatar").
Proof.
  split.
  - pose proof (@registerUser_upload_outcomes Demo.collaborators
                  Demo.register_ava Demo.world0
                  "Ava" "a@x.com" "p1" "Ava A" "tmp/avatar.png"
                  eq_refl eq_refl eq_refl eq_refl) as Hreg.
    simpl in Hreg. apply Hreg; try discriminate; try reflexivity.
    intros u [].
  - pose proof (@registerUser_upload_outcomes Demo.collaborators
                  Demo.register_refused Demo.world0
                  "Ava" "a@x.com" "p1" "Ava A" "tmp/broken.png"
                  eq_refl eq_refl eq_refl eq_refl) as Hreg.
    simpl in Hreg. apply Hreg; try discriminate; try reflexivity.
    intros u [].
Defined.

(** ** Token issue *)

Section TokenIssue.

Context `{Collaborators}.

(** What a call of [generateTokens] does, case by case. *)
Lemma generateTokens_run (userId : nat) (w : world) :
  generateTokens userId w =
  match lookup userId (db w) with
  | Some u =>
      match generateAccessToken u, generateRefreshToken u with
      | Some a, Some r =>
          (Ok (mkTokens a r),
           mkWorld (replace (User.set_refreshToken (Some r) u) (db w))
             (Save userId :: FindById (Some userId) :: log w) (floating w))
      | _, _ => (Throw tokens_failed, called (FindById (Some userId)) w)
      end
  | None => (Throw tokens_failed, called (FindById (Some userId)) w)
  end.
Proof.
  unfold generateTokens, try_catch, User_findById, bind, emit, get_db, ret. simpl.
  destruct (lookup userId (db w)) as [u|] eqn:Hu; simpl; [|reflexivity].
  pose proof (lookup_id _ _ _ Hu) as Hid.
  destruct (generateAccessToken u) as [a|]; simpl; [|reflexivity].
  destruct (generateRefreshToken u) as [r|]; simpl; [|reflexivity].
  unfold User_save, bind, emit, get_db, put_db, ret. simpl.
  rewrite Hid, Hu. simpl. reflexivity.
Qed.

(** C3 (as the code has it).  [generateTokens] for an identity without a
    record fails with the InternalError "something went wrong while
    generating tokens" (status 500) and leaves the store alone.  For an
    identity with a record it signs an access and a refresh token,
    returns the pair and writes the refresh token onto the record, no
    other field touched and nothing validated; when a signing step
    throws it fails with the same InternalError, the store unchanged.
    No other error leaves [generateTokens]. *)
Theorem generateTokens_outcomes (userId : nat) (w : world) :
  kind_of tokens_failed = InternalError
  /\ match lookup userId (db w) with
     | None =>
         fst (generateTokens userId w) = Throw tokens_failed
         /\ db (snd (generateTokens userId w)) = db w
     | Some u =>
         match generateAccessToken u, generateRefreshToken u with
         | Some a, Some r =>
             fst (generateTokens userId w) = Ok (mkTokens a r)
             /\ db (snd (generateTokens userId w))
                = replace (User.set_refreshToken (Some r) u) (db w)
             /\ lookup userId (db (snd (generateTokens userId w)))
                = Some (User.mk (User._id u) (User.username u) (User.email u)
                          (User.password u) (User.fullname u) (User.avatar u)
                          (User.coverImage u) (Some r))
         | _, _ =>
             fst (generateTokens userId w) = Throw tokens_failed
             /\ db (snd (generateTokens userId w)) = db w
         end
     end.
Proof.
  split; [reflexivity|].
  rewrite generateTokens_run.
  destruct (lookup userId (db w)) as [u|] eqn:Hu; [|split; reflexivity].
  destruct (generateAccessToken u) as [a|]; [|split; reflexivity].
  destruct (generateRefreshToken u) as [r|]; [|split; reflexivity].
  simpl. repeat split.
  pose proof (lookup_id _ _ _ Hu) as Hid.
  rewrite <- Hid in Hu |- *.
  apply (lookup_replace (db w) u (User.set_refreshToken (Some r) u)). exact Hu.
Qed.

End TokenIssue.

(** C3, as stated, fails: for an identity that has no record the error
    is the InternalError of status 500, not a NotFoundError. *)
Lemma generateTokens_absent_user_not_NotFoundError :
  lookup 7 (db Demo.world1) = None
  /\ fst (@generateTokens Demo.collaborators 7 Demo.world1)
     = Throw (ApiError 500 "something went wrong while generating tokens")
  /\ kind_of (ApiError 500 "something went wrong while generating tokens")
     <> NotFoundError.
Proof.
  split; [reflexivity|]. split; [reflexivity|]. discriminate.
Qed.

(** ** Login *)

Section Login.

Context `{Collaborators}.

(** A login that answers has found a user, checked the password, issued
    a token pair for the record of that identity and stored the refresh
    token on it. *)
Lemma loginUser_ok_inv (req : request) (w w' : world) (resp : response) :
  loginUser req w = (Ok resp, w') ->
  exists (u v : User.t) (p a r : string),
    find (matches_or (Body.username (body req)) (Body.email (body req))) (db w) = Some u
    /\ Body.password (body req) = Some p
    /\ bcrypt_compare p (User.password u) = true
    /\ lookup (User._id u) (db w) = Some v
    /\ generateAccessToken v = Some a
    /\ generateRefreshToken v = Some r
    /\ db w' = replace (User.set_refreshToken (Some r) v) (db w)
    /\ lookup (User._id u) (db w') = Some (User.set_refreshToken (Some r) v)
    /\ resp = login_response (Some (User.set_refreshToken (Some r) v)) a r.
Proof.
  unfold loginUser.
  destruct (negb (Js.truthy (Body.username (body req)))
            && negb (Js.truthy (Body.email (body req)))); [discriminate|].
  destruct (negb (Js.truthy (Body.password (body req)))); [discriminate|].
  unfold User_findOne, bind at 1 2, emit, get_db, ret. simpl.
  destruct (find _ (db w)) as [u|] eqn:Hfound; [|discriminate].
  unfold isPasswordCorrect, bind at 1.
  destruct (Body.password (body req)) as [p|]; [|discriminate].
  unfold ret at 1.
  destruct (bcrypt_compare p (User.password u)) eqn:Hpw; simpl; [|discriminate].
  unfold bind at 1. rewrite generateTokens_run. simpl.
  destruct (lookup (User._id u) (db w)) as [v|] eqn:Hv; [|discriminate].
  destruct (generateAccessToken v) as [a|] eqn:Ha; [|discriminate].
  destruct (generateRefreshToken v) as [r|] eqn:Hr; [|discriminate].
  assert (Hnew : lookup (User._id u) (replace (User.set_refreshToken (Some r) v) (db w))
                 = Some (User.set_refreshToken (Some r) v)).
  { pose proof (lookup_id _ _ _ Hv) as Hid. rewrite <- Hid in Hv |- *.
    apply (lookup_replace (db w) v (User.set_refreshToken (Some r) v)). exact Hv. }
  unfold User_findById, bind, emit, get_db, ret. simpl. rewrite Hnew.
  intros E. inversion E; subst; clear E.
  exists u, v, p, a, r. simpl. repeat split; assumption || reflexivity.
Qed.

Lemma sanitized_hides_secrets (u : User.t) :
  exists doc,
    sanitized (Some u) = Js.Obj doc
    /\ Js.has "password" doc = false
    /\ Js.has "refreshToken" doc = false
    /\ Js.get "_id" doc = Some (Js.Num (User._id u))
    /\ Js.get "username" doc = Some (Js.Str (User.username u))
    /\ Js.get "email" doc = Some (Js.Str (User.email u)).
Proof.
  eexists. split; [reflexivity|].
  unfold User.toObject. destruct (User.refreshToken u); simpl; repeat split.
Qed.

(** C5 (as the code has it).  A login request with an identifier and a
    password: when no record matches the identifier it fails with the
    NotFoundError "User not found" (status 404); when a record matches
    and the password does not verify against its hash it fails with the
    AuthenticationError of status 400 whose message is "Invalid username
    or password".  The two errors differ, and neither path changes the
    store. *)
Theorem loginUser_failures (req : request) (w : world) (p : string) :
  Js.truthy (Body.username (body req)) || Js.truthy (Body.email (body req)) = true ->
  Body.password (body req) = Some p ->
  p <> "" ->
  match find (matches_or (Body.username (body req)) (Body.email (body req))) (db w) with
  | None =>
      fst (loginUser req w) = Throw (ApiError 404 "User not found")
      /\ kind_of (ApiError 404 "User not found") = NotFoundError
      /\ db (snd (loginUser req w)) = db w
  | Some u =>
      bcrypt_compare p (User.password u) = false ->
      fst (loginUser req w) = Throw (ApiError 400 "Invalid username or password")
      /\ kind_of (ApiError 400 "Invalid username or password") = AuthenticationError
      /\ ApiError 400 "Invalid username or password" <> ApiError 404 "User not found"
      /\ db (snd (loginUser req w)) = db w
  end.
Proof.
  intros Hid Hpw Hp. unfold loginUser.
  assert (Hnot : negb (Js.truthy (Body.username (body req)))
                 && negb (Js.truthy (Body.email (body req))) = false).
  { rewrite <- negb_orb, Hid. reflexivity. }
  rewrite Hnot, Hpw, (truthy_some _ Hp). simpl.
  unfold User_findOne, bind, emit, get_db, ret, throw. simpl.
  destruct (find _ (db w)) as [u|]; simpl.
  - intros Hwrong. rewrite Hwrong. simpl. repeat split. discriminate.
  - repeat split.
Qed.

(** C6.  Every login that answers does so with status 200, sets the
    access token and the refresh token as cookies that are HTTP-only and
    secure, and carries in its body the two tokens and a user object
    that has neither a [password] nor a [refreshToken] field.  The user
    is the one the identifier finds and whose password verified; the
    tokens are the ones signed for that user's record, the refresh
    token being the one now stored on it, nothing else in the store
    having changed. *)
Theorem loginUser_success (req : request) (w w' : world) (resp : response) :
  loginUser req w = (Ok resp, w') ->
  exists (u v : User.t) (p a r : string) (doc : list (string * Js.value)),
    find (matches_or (Body.username (body req)) (Body.email (body req))) (db w)
      = Some u
    /\ Body.password (body req) = Some p
    /\ bcrypt_compare p (User.password u) = true
    /\ lookup (User._id u) (db w) = Some v
    /\ generateAccessToken v = Some a
    /\ generateRefreshToken v = Some r
    /\ status resp = 200
    /\ cookie_actions resp
       = [ Cookie "accessToken" (Js.Str a) (mkOptions true true);
           Cookie "refreshToken" (Js.Str r) (mkOptions true true) ]
    /\ json resp
       = mkApiResponse 200
           (Js.Obj [ ("user", Js.Obj doc);
                     ("accessToken", Js.Str a);
                     ("refreshToken", Js.Str r) ])
           "user logged in successfully"
    /\ doc = User.select_without ["password"; "refreshToken"]
               (User.toObject (User.set_refreshToken (Some r) v))
    /\ Js.has "password" doc = false
    /\ Js.has "refreshToken" doc = false
    /\ Js.get "_id" doc = Some (Js.Num (User._id u))
    /\ Js.get "username" doc = Some (Js.Str (User.username v))
    /\ Js.get "email" doc = Some (Js.Str (User.email v))
    /\ db w' = replace (User.set_refreshToken (Some r) v) (db w)
    /\ lookup (User._id u) (db w') = Some (User.set_refreshToken (Some r) v).
Proof.
  intros Hrun.
  destruct (loginUser_ok_inv _ _ _ _ Hrun)
    as (u & v & p & a & r & Hfound & Hp & Hok & Hv & Ha & Hr & Hdb & Hnew & ->).
  destruct (sanitized_hides_secrets (User.set_refreshToken (Some r) v))
    as (doc & Hdoc & Hpw & Htok & Hi & Hname & Hmail).
  simpl in Hdoc. inversion Hdoc as [Edoc]. clear Hdoc.
  simpl in Hi, Hname, Hmail. rewrite (lookup_id _ _ _ Hv) in Hi.
  exists u, v, p, a, r, doc. unfold login_response. simpl.
  rewrite Edoc.
  repeat (split; [first [assumption | reflexivity]|]).
  exact Hnew.
Qed.

End Login.

Lemma loginUser_failures_witness :
  fst (@loginUser Demo.collaborators Demo.login_ava Demo.world0)
    = Throw (ApiError 404 "User not found")
  /\ fst (@loginUser Demo.collaborators Demo.login_wrong Demo.world1)
     = Throw (ApiError 400 "Invalid username or password").
Proof.
  split.
  - refine (proj1 (@loginUser_failures Demo.collaborators Demo.login_ava
                     Demo.world0 "p1" eq_refl eq_refl _)).
    discriminate.
  - refine (proj1 (@loginUser_failures Demo.collaborators Demo.login_wrong
                     Demo.world1 "p2" eq_refl eq_refl _ eq_refl)).
    discriminate.
Defined.

(** C5, as stated, fails on the message: the error of the wrong-password
    path carries "Invalid username or password", capital I, which is not
    the string "invalid username or password". *)
Lemma loginUser_wrong_password_message :
  fst (@loginUser Demo.collaborators Demo.login_wrong Demo.world1)
    = Throw (ApiError 400 "Invalid username or password")
  /\ ApiError 400 "Invalid username or password"
     <> ApiError 400 "invalid username or password".
Proof.
  split; [reflexivity|discriminate].
Qed.

(** The login of the specification's example: the tokens in the answer
    are the ones signed for the record of [ava]. *)
Lemma loginUser_success_witness :
  exists (u v : User.t) (p a r : string) (doc : list (string * Js.value)),
    find (matches_or (Some "ava") None) [Demo.ava] = Some u
    /\ Some "p1" = Some p
    /\ @bcrypt_compare Demo.collaborators p (User.password u) = true
    /\ lookup (User._id u) [Demo.ava] = Some v
    /\ @generateAccessToken Demo.collaborators v = Some a
    /\ @generateRefreshToken Demo.collaborators v = Some r
    /\ status (login_response (Some Demo.ava_in) "access:ava" "refresh:ava") = 200
    /\ cookie_actions (login_response (Some Demo.ava_in) "access:ava" "refresh:ava")
       = [ Cookie "accessToken" (Js.Str a) (mkOptions true true);
           Cookie "refreshToken" (Js.Str r) (mkOptions true true) ]
    /\ json (login_response (Some Demo.ava_in) "access:ava" "refresh:ava")
       = mkApiResponse 200
           (Js.Obj [ ("user", Js.Obj doc);
                     ("accessToken", Js.Str a);
                     ("refreshToken", Js.Str r) ])
           "user logged in successfully"
    /\ doc = User.select_without ["password"; "refreshToken"]
               (User.toObject (User.set_refreshToken (Some r) v))
    /\ Js.has "password" doc = false
    /\ Js.has "refreshToken" doc = false
    /\ Js.get "_id" doc = Some (Js.Num (User._id u))
    /\ Js.get "username" doc = Some (Js.Str (User.username v))
    /\ Js.get "email" doc = Some (Js.Str (User.email v))
    /\ [Demo.ava_in] = replace (User.set_refreshToken (Some r) v) [Demo.ava]
    /\ lookup (User._id u) [Demo.ava_in] = Some (User.set_refreshToken (Some r) v).
Proof.
  apply (@loginUser_success Demo.collaborators Demo.login_ava Demo.world1
           Demo.world2
           (login_response (Some Demo.ava_in) "access:ava" "refresh:ava")).
  reflexivity.
Defined.

(** ** Logout and refresh *)

Section Refresh.

Context `{Collaborators}.

(** A refresh request that presents a token which verifies, up to the
    comparison with the stored token. *)
Lemma refreshAcessToken_verified
  (req : request) (w : world) (tok : string) (d : option nat) :
  incoming req = Some tok -> tok <> "" -> jwt_verify tok = inr d ->
  refreshAcessToken req w =
  let w1 := called (FindById d) w in
  match match d with Some i => lookup i (db w) | None => None end with
  | None => (Throw (ApiError 400 "Invalid refresh token"), w1)
  | Some u =>
      if Js.strict_eq (Some tok) (User.refreshToken u)
      then
        let run := generateTokens (User._id u) w1 in
        (Ok refresh_response,
         mkWorld (db (snd run)) (log (snd run)) (fst run :: floating (snd run)))
      else (Throw (ApiError 400 "refresh token is expired or used"), w1)
  end.
Proof.
  intros Hin Htok Hver. unfold refreshAcessToken. fold (incoming req).
  rewrite Hin, (truthy_some _ Htok). simpl.
  unfold or_empty, Js.or. rewrite (truthy_some _ Htok).
  unfold verified, bind at 1. rewrite Hver. unfold ret at 1.
  unfold User_findById, bind at 1 2 3, emit, get_db, ret at 1 2. simpl.
  destruct (match d with Some i => lookup i (db w) | None => None end) as [u|];
    [|reflexivity].
  unfold Js.strict_eq.
  destruct (User.refreshToken u) as [t|]; [destruct (tok =? t)|]; simpl;
    try reflexivity.
  unfold bind, unawaited, called.
  destruct (generateTokens (User._id u) _) as [o w2]. reflexivity.
Qed.

Lemma logoutUser_run (req : request) (w : world) (u : User.t) :
  user req = Some u ->
  logoutUser req w =
  (Ok (mkResponse 200
         [ ClearCookie "accessToken" (mkOptions true true);
           ClearCookie "refreshToken" (mkOptions true true) ]
         (mkApiResponse 200 (Js.Obj []) "User logged out successfully")),
   mkWorld
     (match lookup (User._id u) (db w) with
      | Some v =>
          replace (if omitUndefined then v else User.set_refreshToken None v) (db w)
      | None => db w
      end)
     (FindByIdAndUpdate (User._id u) :: log w) (floating w)).
Proof.
  intros Hu. unfold logoutUser. rewrite Hu.
  unfold deref, User_findByIdAndUpdate_refreshToken, bind, emit, get_db, put_db, ret.
  simpl. destruct (lookup (User._id u) (db w)); reflexivity.
Qed.

(** Over a store that writes the [undefined] of the logout's update.  A
    user logs in and is handed a refresh token, then logs out: the
    logout answers with status 200 and the user's record has no refresh
    token any more.  A refresh request that then presents the
    token handed out at login, which still verifies for that user, fails
    at the comparison with the stored token, with the
    ExpiredOrReusedTokenError "refresh token is expired or used". *)
Theorem logout_then_refresh_rejected
  (reqIn reqOut reqRef : request) (w0 w1 : world) (resp : response)
  (u me : User.t) (a rt : string) :
  omitUndefined = false ->
  find (matches_or (Body.username (body reqIn)) (Body.email (body reqIn))) (db w0)
    = Some u ->
  loginUser reqIn w0 = (Ok resp, w1) ->
  cookie_actions resp
    = [ Cookie "accessToken" (Js.Str a) (mkOptions true true);
        Cookie "refreshToken" (Js.Str rt) (mkOptions true true) ] ->
  user reqOut = Some me ->
  User._id me = User._id u ->
  incoming reqRef = Some rt ->
  rt <> "" ->
  jwt_verify rt = inr (Some (User._id u)) ->
  (exists out, fst (logoutUser reqOut w1) = Ok out /\ status out = 200)
  /\ option_map User.refreshToken
       (lookup (User._id u) (db (snd (logoutUser reqOut w1)))) = Some None
  /\ fst (refreshAcessToken reqRef (snd (logoutUser reqOut w1)))
     = Throw (ApiError 400 "refresh token is expired or used")
  /\ kind_of (ApiError 400 "refresh token is expired or used")
     = ExpiredOrReusedTokenError.
Proof.
  intros Hstore Hfound Hlogin Hcookies Hme Hid Hin Hrt Hver.
  destruct (loginUser_ok_inv _ _ _ _ Hlogin)
    as (u' & v & p & a' & r & Hfound' & _ & _ & Hv & _ & _ & _ & Hnew & ->).
  rewrite Hfound in Hfound'. inversion Hfound'; subst u'; clear Hfound'.
  rewrite (logoutUser_run _ _ _ Hme). simpl. rewrite Hstore, Hid, Hnew.
  assert (Hcleared :
    lookup (User._id u)
      (replace (User.set_refreshToken None (User.set_refreshToken (Some r) v)) (db w1))
    = Some (User.set_refreshToken None (User.set_refreshToken (Some r) v))).
  { pose proof (lookup_id _ _ _ Hnew) as E. simpl in E. rewrite <- E.
    apply (lookup_replace (db w1) (User.set_refreshToken (Some r) v)
             (User.set_refreshToken None (User.set_refreshToken (Some r) v))).
    simpl. rewrite E. exact Hnew. }
  split; [eexists; split; reflexivity|].
  split; [rewrite Hcleared; reflexivity|].
  split; [|reflexivity].
  rewrite (refreshAcessToken_verified _ _ _ _ Hin Hrt Hver). simpl.
  rewrite Hcleared. reflexivity.
Qed.

(** With a store that drops the [undefined] of the logout's update the
    logout leaves the store as it found it: the refresh token stays on
    the record. *)
Lemma logoutUser_store_kept (req : request) (w : world) (u : User.t) :
  omitUndefined = true ->
  user req = Some u ->
  db (snd (logoutUser req w)) = db w.
Proof.
  intros Hstore Hu. rewrite (logoutUser_run _ _ _ Hu), Hstore. simpl.
  destruct (lookup (User._id u) (db w)) as [v|] eqn:Hv; [|reflexivity].
  apply replace_same. rewrite (lookup_id _ _ _ Hv). exact Hv.
Qed.

(** With such a store the token handed out at login is still the stored
    one after the logout, and a refresh request presenting it passes the
    comparison. *)
Lemma logout_then_refresh_served_when_omitted
  (reqOut reqRef : request) (w : world) (me u : User.t) (rt : string) :
  omitUndefined = true ->
  user reqOut = Some me ->
  lookup (User._id me) (db w) = Some u ->
  User.refreshToken u = Some rt ->
  incoming reqRef = Some rt ->
  rt <> "" ->
  jwt_verify rt = inr (Some (User._id me)) ->
  fst (refreshAcessToken reqRef (snd (logoutUser reqOut w))) = Ok refresh_response.
Proof.
  intros Hstore Hme Hu Htok Hin Hrt Hver.
  rewrite (refreshAcessToken_verified _ _ _ _ Hin Hrt Hver).
  rewrite (logoutUser_store_kept _ _ _ Hstore Hme). simpl.
  rewrite Hu, Htok. simpl. rewrite String.eqb_refl. reflexivity.
Qed.

(** C1 fails on the code over a store that drops the [undefined] of an
    update.  A user logs in and is handed a refresh token, then logs
    out: the logout answers with status 200 and clears the cookies, but
    what it sends the store is [$set: { refreshToken: undefined }],
    which such a store does not write.  The refresh token handed out at
    login is still on the user's record, and a refresh request that
    presents it, the token still verifying for that user, passes the
    comparison with the stored token and is answered with status 200
    instead of the ExpiredOrReusedTokenError. *)
Theorem logout_leaves_token_refresh_served
  (reqIn reqOut reqRef : request) (w0 w1 : world) (resp : response)
  (u me : User.t) (a rt : string) :
  omitUndefined = true ->
  find (matches_or (Body.username (body reqIn)) (Body.email (body reqIn))) (db w0)
    = Some u ->
  loginUser reqIn w0 = (Ok resp, w1) ->
  cookie_actions resp
    = [ Cookie "accessToken" (Js.Str a) (mkOptions true true);
        Cookie "refreshToken" (Js.Str rt) (mkOptions true true) ] ->
  user reqOut = Some me ->
  User._id me = User._id u ->
  incoming reqRef = Some rt ->
  rt <> "" ->
  jwt_verify rt = inr (Some (User._id u)) ->
  fst (logoutUser reqOut w1)
    = Ok (mkResponse 200
            [ ClearCookie "accessToken" (mkOptions true true);
              ClearCookie "refreshToken" (mkOptions true true) ]
            (mkApiResponse 200 (Js.Obj []) "User logged out successfully"))
  /\ db (snd (logoutUser reqOut w1)) = db w1
  /\ option_map User.refreshToken
       (lookup (User._id u) (db (snd (logoutUser reqOut w1)))) = Some (Some rt)
  /\ fst (refreshAcessToken reqRef (snd (logoutUser reqOut w1)))
     = Ok refresh_response
  /\ status refresh_response = 200
  /\ fst (refreshAcessToken reqRef (snd (logoutUser reqOut w1)))
     <> Throw (ApiError 400 "refresh token is expired or used").
Proof.
  intros Hstore Hfound Hlogin Hcookies Hme Hid Hin Hrt Hver.
  destruct (loginUser_ok_inv _ _ _ _ Hlogin)
    as (u' & v & p & a' & r & Hfound' & _ & _ & Hv & _ & _ & _ & Hnew & ->).
  rewrite Hfound in Hfound'. inversion Hfound'; subst u'; clear Hfound'.
  unfold login_response in Hcookies. simpl in Hcookies.
  inversion Hcookies; subst a' r; clear Hcookies.
  pose proof (logoutUser_store_kept _ w1 _ Hstore Hme) as Hkept.
  assert (Hserved :
    fst (refreshAcessToken reqRef (snd (logoutUser reqOut w1))) = Ok refresh_response).
  { apply (logout_then_refresh_served_when_omitted reqOut reqRef w1 me
             (User.set_refreshToken (Some rt) v) rt); try assumption.
    - rewrite Hid. exact Hnew.
    - reflexivity.
    - rewrite Hid. exact Hver. }
  split; [rewrite (logoutUser_run _ _ _ Hme); reflexivity|].
  split; [exact Hkept|].
  split; [rewrite Hkept, Hnew; reflexivity|].
  split; [exact Hserved|].
  split; [reflexivity|].
  rewrite Hserved. discriminate.
Qed.

(** C9.  A refresh request without a token, in the cookie or in the
    body, fails with the ValidationError "Refresh token is required"
    (status 400).  One whose token does not pass verification fails with
    the verifier's own error, the InvalidTokenError of the token issuer.
    One whose token verifies for an identity that has no record fails
    with the InvalidTokenError "Invalid refresh token" (status 400).
    None of the three touches the store. *)
Theorem refreshAcessToken_rejections (req : request) (w : world) :
  (Js.truthy (incoming req) = false ->
     refreshAcessToken req w = (Throw (ApiError 400 "Refresh token is required"), w)
     /\ kind_of (ApiError 400 "Refresh token is required") = ValidationError)
  /\ (forall tok m,
        incoming req = Some tok -> tok <> "" -> jwt_verify tok = inl m ->
        refreshAcessToken req w = (Throw (JsonWebTokenError m), w)
        /\ kind_of (JsonWebTokenError m) = InvalidTokenError)
  /\ (forall tok d,
        incoming req = Some tok -> tok <> "" -> jwt_verify tok = inr d ->
        match d with Some i => lookup i (db w) | None => None end = None ->
        fst (refreshAcessToken req w) = Throw (ApiError 400 "Invalid refresh token")
        /\ kind_of (ApiError 400 "Invalid refresh token") = InvalidTokenError
        /\ db (snd (refreshAcessToken req w)) = db w).
Proof.
  split; [|split].
  - intros Hnone. split; [|reflexivity].
    unfold refreshAcessToken. fold (incoming req). rewrite Hnone. reflexivity.
  - intros tok m Hin Htok Hver. split; [|reflexivity].
    unfold refreshAcessToken. fold (incoming req).
    rewrite Hin, (truthy_some _ Htok). simpl.
    unfold or_empty, Js.or. rewrite (truthy_some _ Htok).
    unfold verified, bind. rewrite Hver. reflexivity.
  - intros tok d Hin Htok Hver Habsent.
    rewrite (refreshAcessToken_verified _ _ _ _ Hin Htok Hver). simpl.
    rewrite Habsent. repeat split.
Qed.

(** C2 fails on the code.  A refresh request whose token verifies for
    an existing user and is the refresh token stored for that user is
    answered with status 200, and neither the cookies nor the body of
    the answer carry a token: both names are [undefined], because the
    call of [generateTokens] is not awaited.  What that call issued, or
    the error it failed with, is the result of a promise nobody reads. *)
Theorem refreshAcessToken_answers_without_tokens
  (req : request) (w : world) (tok : string) (u : User.t) :
  incoming req = Some tok ->
  tok <> "" ->
  jwt_verify tok = inr (Some (User._id u)) ->
  lookup (User._id u) (db w) = Some u ->
  User.refreshToken u = Some tok ->
  fst (refreshAcessToken req w)
  = Ok (mkResponse 200
          [ Cookie "accessToken" Js.Undefined (mkOptions true true);
            Cookie "refreshToken" Js.Undefined (mkOptions true true) ]
          (mkApiResponse 200
             (Js.Obj [ ("accessToken", Js.Undefined);
                       ("refreshToken", Js.Undefined) ])
             "Access Token refreshed"))
  /\ floating (snd (refreshAcessToken req w))
     = fst (generateTokens (User._id u) (called (FindById (Some (User._id u))) w))
       :: floating w.
Proof.
  intros Hin Htok Hver Hu Hstored.
  rewrite (refreshAcessToken_verified _ _ _ _ Hin Htok Hver). simpl.
  rewrite Hu, Hstored. simpl. rewrite String.eqb_refl.
  split; [reflexivity|]. simpl.
  rewrite generateTokens_run. simpl. rewrite Hu.
  destruct (generateAccessToken u); [|reflexivity].
  destruct (generateRefreshToken u); reflexivity.
Qed.

End Refresh.

Lemma logout_then_refresh_rejected_witness :
  fst (@refreshAcessToken Demo.collaborators Demo.refresh_ava
         (snd (@logoutUser Demo.collaborators Demo.logout_ava Demo.world2)))
  = Throw (ApiError 400 "refresh token is expired or used").
Proof.
  refine (proj1 (proj2 (proj2
    (@logout_then_refresh_rejected Demo.collaborators
       Demo.login_ava Demo.logout_ava Demo.refresh_ava Demo.world1 Demo.world2
       (login_response (Some Demo.ava_in) "access:ava" "refresh:ava")
       Demo.ava Demo.ava_in "access:ava" "refresh:ava"
       eq_refl eq_refl eq_refl eq_refl eq_refl eq_refl eq_refl _ eq_refl)))).
  discriminate.
Defined.

(** The user of [Demo.world1] logs in, logs out and presents the token
    of the login, over a store that drops [undefined]: the token is
    still stored and the refresh is served. *)
Lemma logout_leaves_token_refresh_served_witness :
  option_map User.refreshToken
    (lookup 1 (db (snd (@logoutUser Sample.dropping Demo.logout_ava Demo.world2))))
  = Some (Some "refresh:ava")
  /\ fst (@refreshAcessToken Sample.dropping Demo.refresh_ava
            (snd (@logoutUser Sample.dropping Demo.logout_ava Demo.world2)))
     = Ok refresh_response.
Proof.
  assert (Hrt : "refresh:ava" <> "") by discriminate.
  pose proof (@logout_leaves_token_refresh_served Sample.dropping
                Demo.login_ava Demo.logout_ava Demo.refresh_ava
                Demo.world1 Demo.world2
                (login_response (Some Demo.ava_in) "access:ava" "refresh:ava")
                Demo.ava Demo.ava_in "access:ava" "refresh:ava"
                eq_refl eq_refl eq_refl eq_refl eq_refl eq_refl eq_refl Hrt eq_refl)
    as (_ & _ & Hkept & Hserved & _).
  split; [exact Hkept|exact Hserved].
Defined.

Lemma refreshAcessToken_rejections_witness :
  @refreshAcessToken Demo.collaborators Demo.refresh_none Demo.world2
    = (Throw (ApiError 400 "Refresh token is required"), Demo.world2)
  /\ @refreshAcessToken Demo.collaborators Demo.refresh_forged Demo.world2
     = (Throw (JsonWebTokenError "invalid signature"), Demo.world2)
  /\ fst (@refreshAcessToken Demo.collaborators Demo.refresh_ava Demo.world0)
     = Throw (ApiError 400 "Invalid refresh token").
Proof.
  split; [|split].
  - apply (proj1 (@refreshAcessToken_rejections Demo.collaborators
                    Demo.refresh_none Demo.world2)).
    reflexivity.
  - refine (proj1 (proj1 (proj2 (@refreshAcessToken_rejections Demo.collaborators
                                   Demo.refresh_forged Demo.world2))
                     "forged" "invalid signature" eq_refl _ eq_refl)).
    discriminate.
  - refine (proj1 (proj2 (proj2 (@refreshAcessToken_rejections Demo.collaborators
                                   Demo.refresh_ava Demo.world0))
                     "refresh:ava" (Some 1) eq_refl _ eq_refl eq_refl)).
    discriminate.
Defined.

(** The logged-in user of [Demo.world2] presents the stored refresh
    token: status 200, no token in the answer, the issued pair left in
    the dropped promise. *)
Lemma refreshAcessToken_answers_without_tokens_witness :
  fst (@refreshAcessToken Demo.collaborators Demo.refresh_ava Demo.world2)
  = Ok (mkResponse 200
          [ Cookie "accessToken" Js.Undefined (mkOptions true true);
            Cookie "refreshToken" Js.Undefined (mkOptions true true) ]
          (mkApiResponse 200
             (Js.Obj [ ("accessToken", Js.Undefined);
                       ("refreshToken", Js.Undefined) ])
             "Access Token refreshed"))
  /\ floating (snd (@refreshAcessToken Demo.collaborators Demo.refresh_ava Demo.world2))
     = [ Ok (mkTokens "access:ava" "refresh:ava") ].
Proof.
  refine (@refreshAcessToken_answers_without_tokens Demo.collaborators
            Demo.refresh_ava Demo.world2 "refresh:ava" Demo.ava_in
            eq_refl _ eq_refl eq_refl eq_refl).
  discriminate.
Defined.

(** ** Password change *)

Section PasswordChange.

Context `{Collaborators}.

(** C7 (as the code has it).  A password-change request whose new
    password and confirmation differ fails with the ValidationError "New
    password and confirm password do not match" (status 400) and the
    world is untouched, the stored hash included.  A request whose new
    password equals the confirmation, is not blank after trimming and
    differs from the current password, made by a user whose current
    password verifies, answers with status 200 and stores the hash of
    the new password on the user's record: under a sound hash scheme the
    old password no longer verifies against it and the new one does. *)
Theorem changeCurrentPassword_outcomes (req : request) (w : world) :
  (Js.strict_eq (Body.newPassword (body req)) (Body.confirmPassword (body req)) = false ->
     changeCurrentPassword req w
       = (Throw (ApiError 400 "New password and confirm password do not match"), w)
     /\ kind_of (ApiError 400 "New password and confirm password do not match")
        = ValidationError)
  /\ (forall (me u : User.t) (cur new : string),
        sound_hash ->
        Body.password (body req) = Some cur ->
        Body.newPassword (body req) = Some new ->
        Body.confirmPassword (body req) = Some new ->
        Js.trim new <> "" ->
        new <> cur ->
        user req = Some me ->
        lookup (User._id me) (db w) = Some u ->
        bcrypt_compare cur (User.password u) = true ->
        (exists resp, fst (changeCurrentPassword req w) = Ok resp /\ status resp = 200)
        /\ lookup (User._id me) (db (snd (changeCurrentPassword req w)))
           = Some (User.set_password (bcrypt_hash new) u)
        /\ bcrypt_hash new <> User.password u
        /\ bcrypt_compare cur (bcrypt_hash new) = false
        /\ bcrypt_compare new (bcrypt_hash new) = true).
Proof.
  split.
  - intros Hdiff. split; [|reflexivity].
    unfold changeCurrentPassword. rewrite Hdiff. reflexivity.
  - intros me u cur new Hsound Hcur Hnew Hconf Hblank Hne Hme Hu Hok.
    assert (Hold : bcrypt_compare cur (bcrypt_hash new) = false).
    { destruct (bcrypt_compare cur (bcrypt_hash new)) eqn:E; [|reflexivity].
      apply Hsound in E. congruence. }
    assert (Hstored :
      lookup (User._id me)
        (replace (User.set_password (bcrypt_hash new) u) (db w))
      = Some (User.set_password (bcrypt_hash new) u)).
    { pose proof (lookup_id _ _ _ Hu) as E. rewrite <- E in Hu |- *.
      apply (lookup_replace (db w) u (User.set_password (bcrypt_hash new) u)).
      exact Hu. }
    assert (Hrun :
      changeCurrentPassword req w
      = (Ok (mkResponse 200 []
               (mkApiResponse 200 (Js.Obj []) "Password changed successfully")),
         mkWorld (replace (User.set_password (bcrypt_hash new) u) (db w))
           (Save (User._id me) :: FindById (Some (User._id me)) :: log w)
           (floating w))).
    { unfold changeCurrentPassword. rewrite Hcur, Hnew, Hconf, Hme.
      unfold Js.strict_eq. rewrite String.eqb_refl. simpl.
      assert (Hnb : (Js.trim new =? "") = false)
        by (apply String.eqb_neq; exact Hblank).
      unfold bind at 1. simpl. rewrite Hnb. simpl.
      unfold User_findById, User_save, bind, emit, get_db, put_db, ret. simpl.
      rewrite Hu. simpl. rewrite Hok. simpl.
      rewrite (lookup_id _ _ _ Hu), Hu. reflexivity. }
    rewrite Hrun. simpl.
    split; [eexists; split; reflexivity|].
    split; [exact Hstored|].
    split; [|split; [exact Hold|apply Hsound; reflexivity]].
    intros E. rewrite E in Hold. congruence.
Qed.

End PasswordChange.

Lemma demo_sound_hash : @sound_hash Demo.collaborators.
Proof.
  intros p q. simpl. split.
  - intros E. apply String.eqb_eq in E. inversion E. reflexivity.
  - intros ->. apply String.eqb_refl.
Qed.

Lemma changeCurrentPassword_outcomes_witness :
  @changeCurrentPassword Demo.collaborators
     (Demo.change_password "p1" "p2" "p3") Demo.world1
    = (Throw (ApiError 400 "New password and confirm password do not match"),
       Demo.world1)
  /\ lookup 1 (db (snd (@changeCurrentPassword Demo.collaborators
                          (Demo.change_password "p1" "p2" "p2") Demo.world1)))
     = Some (User.set_password "hash:p2" Demo.ava).
Proof.
  split.
  - apply (proj1 (@changeCurrentPassword_outcomes Demo.collaborators
                    (Demo.change_password "p1" "p2" "p3") Demo.world1)).
    reflexivity.
  - refine (proj1 (proj2 (proj2 (@changeCurrentPassword_outcomes Demo.collaborators
                                   (Demo.change_password "p1" "p2" "p2") Demo.world1)
                            Demo.ava Demo.ava "p1" "p2" demo_sound_hash
                            eq_refl eq_refl eq_refl _ _ eq_refl eq_refl eq_refl))).
    + discriminate.
    + discriminate.
Defined.

(** C7, as stated, fails in its second half.  The new password and the
    confirmation agree and the current password is correct in both
    requests below.  In the first the new password is blank: the request
    is rejected and the stored hash stays.  In the second the new
    password is the current one: the request is served and the old
    password still verifies against the stored hash. *)
Lemma changeCurrentPassword_matching_not_always_replaced :
  (@bcrypt_compare Demo.collaborators "p1" (User.password Demo.ava) = true
   /\ fst (@changeCurrentPassword Demo.collaborators
             (Demo.change_password "p1" "  " "  ") Demo.world1)
      = Throw (ApiError 400 "New password is required,cannot be empty")
   /\ db (snd (@changeCurrentPassword Demo.collaborators
                 (Demo.change_password "p1" "  " "  ") Demo.world1))
      = [Demo.ava])
  /\ (status_of (fst (@changeCurrentPassword Demo.collaborators
                        (Demo.change_password "p1" "p1" "p1") Demo.world1))
      = Some 200
      /\ option_map (fun u => @bcrypt_compare Demo.collaborators "p1" (User.password u))
           (lookup 1 (db (snd (@changeCurrentPassword Demo.collaborators
                                 (Demo.change_password "p1" "p1" "p1") Demo.world1))))
         = Some true).
Proof.
  repeat split.
Qed.

(** ** Stores before and after a handler *)

Section Keeping.

Variable P : list User.t -> list User.t -> Prop.
Hypothesis P_refl : forall l, P l l.
Hypothesis P_trans : forall l1 l2 l3, P l1 l2 -> P l2 l3 -> P l1 l3.

Lemma keeps_readonly {A} (m : M A) :
  (forall w, db (snd (m w)) = db w) -> keeps P m.
Proof. intros Hm w. rewrite Hm. apply P_refl. Qed.

Lemma keeps_ret {A} (a : A) : keeps P (ret a).
Proof. intros w. apply P_refl. Qed.

Lemma keeps_throw {A} (e : error) : keeps P (@throw A e).
Proof. intros w. apply P_refl. Qed.

Lemma keeps_bind {A B} (m : M A) (k : A -> M B) :
  keeps P m -> (forall a, keeps P (k a)) -> keeps P (bind m k).
Proof.
  intros Hm Hk w. unfold bind. specialize (Hm w).
  destruct (m w) as [[a|e] w1]; simpl in *; [|exact Hm].
  apply (P_trans _ _ _ Hm). apply Hk.
Qed.

Lemma keeps_try_catch {A} (m : M A) (h : error -> M A) :
  keeps P m -> (forall e, keeps P (h e)) -> keeps P (try_catch m h).
Proof.
  intros Hm Hh w. unfold try_catch. specialize (Hm w).
  destruct (m w) as [[a|e] w1]; simpl in *; [exact Hm|].
  apply (P_trans _ _ _ Hm). apply Hh.
Qed.

Lemma keeps_unawaited (m : M tokens) : keeps P m -> keeps P (unawaited m).
Proof.
  intros Hm w. unfold unawaited. specialize (Hm w).
  destruct (m w) as [o w1]. exact Hm.
Qed.

End Keeping.

Lemma Forall2_same {A} (R : A -> A -> Prop) (l : list A) :
  (forall a, R a a) -> Forall2 R l l.
Proof. intros HR. induction l; constructor; auto. Qed.

Lemma Forall2_chain {A} (R : A -> A -> Prop) (l1 l2 l3 : list A) :
  (forall a b c, R a b -> R b c -> R a c) ->
  Forall2 R l1 l2 -> Forall2 R l2 l3 -> Forall2 R l1 l3.
Proof.
  intros HR H12. revert l3. induction H12; intros l3 H23; inversion H23; subst;
    constructor; eauto.
Qed.

Lemma grown_refl (R : User.t -> User.t -> Prop) (l : list User.t) :
  (forall u, R u u) -> grown R l l.
Proof.
  intros HR. exists l, []. split; [symmetry; apply app_nil_r|].
  apply Forall2_same. exact HR.
Qed.

Lemma grown_trans (R : User.t -> User.t -> Prop) (l1 l2 l3 : list User.t) :
  (forall a b c, R a b -> R b c -> R a c) ->
  grown R l1 l2 -> grown R l2 l3 -> grown R l1 l3.
Proof.
  intros HR (a1 & a2 & -> & H1) (b1 & b2 & -> & H2).
  apply Forall2_app_inv_l in H2. destruct H2 as (c1 & c2 & Hc1 & Hc2 & ->).
  exists c1, (c2 ++ b2)%list. split; [symmetry; apply app_assoc|].
  apply (Forall2_chain R _ _ _ HR H1 Hc1).
Qed.

Lemma Forall2_replace (R : User.t -> User.t -> Prop) (l : list User.t) (u v : User.t) :
  (forall a, R a a) ->
  lookup (User._id v) l = Some u -> R u v ->
  Forall2 R l (replace v l).
Proof.
  intros HR. unfold lookup. induction l as [|x r IH]; simpl; intros Hu Huv;
    [constructor|].
  destruct (by_id (User._id v) x).
  - inversion Hu; subst. constructor; [exact Huv|apply Forall2_same; exact HR].
  - constructor; [apply HR|apply IH; assumption].
Qed.

Lemma Forall2_grown (R : User.t -> User.t -> Prop) (l l' : list User.t) :
  Forall2 R l l' -> grown R l l'.
Proof.
  intros HF. exists l', []. split; [symmetry; apply app_nil_r|exact HF].
Qed.

Lemma Forall2_weaken (R R' : User.t -> User.t -> Prop) (l l' : list User.t) :
  (forall u v, R u v -> R' u v) -> Forall2 R l l' -> Forall2 R' l l'.
Proof. intros HRR HF. induction HF; constructor; auto. Qed.

Section Frames.

Context `{Collaborators} `{StoreEdge}.

Lemma User_findById_readonly (id : option nat) (w : world) :
  db (snd (User_findById id w)) = db w.
Proof. reflexivity. Qed.

Lemma User_findOne_readonly (un em : option string) (w : world) :
  db (snd (User_findOne un em w)) = db w.
Proof. reflexivity. Qed.

Lemma upload_readonly (p : option string) (w : world) :
  db (snd (upload p w)) = db w.
Proof. reflexivity. Qed.

Lemma isPasswordCorrect_readonly (u : User.t) (p : option string) (w : world) :
  db (snd (isPasswordCorrect u p w)) = db w.
Proof. destruct p; reflexivity. Qed.

Lemma deref_readonly {A} (x : option A) (w : world) :
  db (snd (deref x w)) = db w.
Proof. destruct x; reflexivity. Qed.

Lemma verified_readonly (tok : string) (w : world) :
  db (snd (verified tok w)) = db w.
Proof. unfold verified. destruct (jwt_verify tok); reflexivity. Qed.

Variable R : User.t -> User.t -> Prop.
Hypothesis R_refl : forall u, R u u.
Hypothesis R_trans : forall a b c, R a b -> R b c -> R a c.

Let F2_refl := fun l => Forall2_same R l R_refl.
Let F2_trans := fun l1 l2 l3 => Forall2_chain R l1 l2 l3 R_trans.

Ltac keeps_run :=
  repeat first
    [ apply (keeps_ret _ F2_refl)
    | apply (keeps_throw _ F2_refl)
    | apply (keeps_readonly _ F2_refl); intros ?;
      first [ apply User_findById_readonly | apply User_findOne_readonly
            | apply upload_readonly | apply isPasswordCorrect_readonly
            | apply deref_readonly | apply verified_readonly ]
    | apply (keeps_bind _ F2_trans); [|intros ?]
    | apply (keeps_unawaited _)
    | match goal with
      | |- keeps _ (if ?b then _ else _) => destruct b
      | |- keeps _ (match ?x with _ => _ end) => destruct x
      end
    | assumption ].

Lemma generateTokens_keeps (userId : nat) :
  (forall u t, R u (User.set_refreshToken t u)) ->
  keeps (Forall2 R) (generateTokens userId).
Proof.
  intros Htok w. rewrite generateTokens_run.
  destruct (lookup userId (db w)) as [u|] eqn:Hu; [|apply F2_refl].
  destruct (generateAccessToken u); [|apply F2_refl].
  destruct (generateRefreshToken u) as [r|]; [|apply F2_refl].
  simpl. apply (Forall2_replace R _ u); auto.
  simpl. rewrite (lookup_id _ _ _ Hu). exact Hu.
Qed.

Lemma loginUser_keeps (req : request) :
  (forall u t, R u (User.set_refreshToken t u)) ->
  keeps (Forall2 R) (loginUser req).
Proof.
  intros Htok. pose proof (fun i => generateTokens_keeps i Htok) as Hgen.
  unfold loginUser. keeps_run. apply Hgen.
Qed.

Lemma refreshAcessToken_keeps (req : request) :
  (forall u t, R u (User.set_refreshToken t u)) ->
  keeps (Forall2 R) (refreshAcessToken req).
Proof.
  intros Htok. pose proof (fun i => generateTokens_keeps i Htok) as Hgen.
  unfold refreshAcessToken. keeps_run. apply Hgen.
Qed.

Lemma logoutUser_keeps (req : request) :
  (forall u t, R u (User.set_refreshToken t u)) ->
  keeps (Forall2 R) (logoutUser req).
Proof.
  intros Htok w. destruct (user req) as [me|] eqn:Hme.
  - rewrite (logoutUser_run _ _ _ Hme). simpl.
    destruct (lookup (User._id me) (db w)) as [v|] eqn:Hv; [|apply F2_refl].
    apply (Forall2_replace R _ v); auto.
    + destruct omitUndefined; simpl; rewrite (lookup_id _ _ _ Hv); exact Hv.
    + destruct omitUndefined; auto.
  - unfold logoutUser. rewrite Hme. apply F2_refl.
Qed.

End Frames.

Section Frames2.

Context `{Collaborators} `{StoreEdge}.

(** The store after a password change: as it was, unless the request
    was served. *)
Lemma changeCurrentPassword_db (req : request) (w : world) :
  (db (snd (changeCurrentPassword req w)) = db w
   /\ exists e, fst (changeCurrentPassword req w) = Throw e)
  \/ exists (me u : User.t) (cur new : string),
       user req = Some me
       /\ lookup (User._id me) (db w) = Some u
       /\ Body.password (body req) = Some cur
       /\ Body.newPassword (body req) = Some new
       /\ Body.confirmPassword (body req) = Some new
       /\ Js.trim new <> ""
       /\ bcrypt_compare cur (User.password u) = true
       /\ db (snd (changeCurrentPassword req w))
          = replace (User.set_password (bcrypt_hash new) u) (db w)
       /\ exists resp, fst (changeCurrentPassword req w) = Ok resp.
Proof.
  destruct (changeCurrentPassword req w) as [o w'] eqn:Hrun. simpl.
  unfold changeCurrentPassword in Hrun.
  assert (Hleft : forall e, (o, w') = (Throw e, w) ->
            (db w' = db w /\ exists e, o = Throw e) \/
            exists (me u : User.t) (cur new : string),
              user req = Some me /\ lookup (User._id me) (db w) = Some u
              /\ Body.password (body req) = Some cur
              /\ Body.newPassword (body req) = Some new
              /\ Body.confirmPassword (body req) = Some new
              /\ Js.trim new <> ""
              /\ bcrypt_compare cur (User.password u) = true
              /\ db w' = replace (User.set_password (bcrypt_hash new) u) (db w)
              /\ exists resp, o = Ok resp).
  { intros e E. inversion E; subst. left. split; [reflexivity|eexists; reflexivity]. }
  destruct (Js.strict_eq (Body.newPassword (body req)) (Body.confirmPassword (body req)))
    eqn:Heq; simpl in Hrun; [|symmetry in Hrun; eapply Hleft; exact Hrun].
  apply strict_eq_spec in Heq.
  destruct (Body.newPassword (body req)) as [new|] eqn:Hnew; simpl in Hrun;
    [|symmetry in Hrun; eapply Hleft; exact Hrun].
  unfold bind at 1 in Hrun. simpl in Hrun.
  destruct (Js.trim new =? "") eqn:Hblank; simpl in Hrun;
    [symmetry in Hrun; eapply Hleft; exact Hrun|].
  apply String.eqb_neq in Hblank.
  unfold User_findById, bind at 1 2 3, emit, get_db, ret at 1 2 in Hrun.
  simpl in Hrun.
  destruct (user req) as [me|] eqn:Hme; simpl in Hrun.
  2:{ inversion Hrun; subst. left. split; [reflexivity|eexists; reflexivity]. }
  destruct (lookup (User._id me) (db w)) as [u|] eqn:Hu; simpl in Hrun.
  2:{ inversion Hrun; subst. left. split; [reflexivity|eexists; reflexivity]. }
  unfold bind at 1 in Hrun.
  destruct (Body.password (body req)) as [cur|] eqn:Hcur; simpl in Hrun.
  2:{ inversion Hrun; subst. left. split; [reflexivity|eexists; reflexivity]. }
  destruct (bcrypt_compare cur (User.password u)) eqn:Hok; simpl in Hrun.
  2:{ inversion Hrun; subst. left. split; [reflexivity|eexists; reflexivity]. }
  unfold User_save, bind, emit, get_db, put_db, ret in Hrun. simpl in Hrun.
  rewrite (lookup_id _ _ _ Hu), Hu in Hrun. simpl in Hrun.
  inversion Hrun; subst. right. exists me, u, cur, new. simpl.
  repeat split; try assumption; try (symmetry; assumption).
  eexists; reflexivity.
Qed.

Variable R : User.t -> User.t -> Prop.
Hypothesis R_refl : forall u, R u u.
Hypothesis R_trans : forall a b c, R a b -> R b c -> R a c.

Let F2_refl := fun l => Forall2_same R l R_refl.
Let F2_trans := fun l1 l2 l3 => Forall2_chain R l1 l2 l3 R_trans.

Lemma changeCurrentPassword_keeps (req : request) :
  (forall u p, R u (User.set_password p u)) ->
  keeps (Forall2 R) (changeCurrentPassword req).
Proof.
  intros Hpw w.
  destruct (changeCurrentPassword_db req w)
    as [[-> _]|(me & u & cur & new & _ & Hu & _ & _ & _ & _ & _ & -> & _)];
    [apply F2_refl|].
  apply (Forall2_replace R _ u); auto.
  simpl. rewrite (lookup_id _ _ _ Hu). exact Hu.
Qed.

Lemma User_findByIdAndUpdate_new_keeps (i : nat) (set : User.t -> User.t) :
  (forall u, User._id (set u) = User._id u) ->
  (forall u, R u (set u)) ->
  keeps (Forall2 R) (User_findByIdAndUpdate_new (Some i) set).
Proof.
  intros Hid Hset w. unfold User_findByIdAndUpdate_new, bind, emit, get_db, put_db, ret.
  simpl. destruct (lookup i (db w)) as [u|] eqn:Hu; simpl; [|apply F2_refl].
  apply (Forall2_replace R _ u); auto.
  rewrite Hid, (lookup_id _ _ _ Hu). exact Hu.
Qed.

Ltac keeps_run :=
  repeat first
    [ apply (keeps_ret _ F2_refl)
    | apply (keeps_throw _ F2_refl)
    | apply (keeps_readonly _ F2_refl); intros ?;
      first [ apply User_findById_readonly | apply User_findOne_readonly
            | apply upload_readonly | apply isPasswordCorrect_readonly
            | apply deref_readonly | apply verified_readonly ]
    | apply (keeps_bind _ F2_trans); [|intros ?]
    | match goal with
      | |- keeps _ (if ?b then _ else _) => destruct b
      | |- keeps _ (match ?x with _ => _ end) => destruct x
      end
    | assumption ].

Lemma updateAvatar_keeps (req : file_request) :
  user (request_of req) <> None ->
  (forall u a, R u (set_avatar a u)) ->
  keeps (Forall2 R) (updateAvatar req).
Proof.
  intros Hme Hset. unfold updateAvatar. keeps_run.
  destruct (user (request_of req)) as [me|]; [|contradiction].
  apply User_findByIdAndUpdate_new_keeps; [reflexivity|].
  intros u. apply Hset.
Qed.

Lemma updateCoverImage_keeps (req : file_request) :
  user (request_of req) <> None ->
  (forall u a, R u (set_coverImage a u)) ->
  keeps (Forall2 R) (updateCoverImage req).
Proof.
  intros Hme Hset. unfold updateCoverImage. keeps_run.
  destruct (user (request_of req)) as [me|]; [|contradiction].
  apply User_findByIdAndUpdate_new_keeps; [reflexivity|].
  intros u. apply Hset.
Qed.

(** The store after a registration: as it was, or with one record more. *)
Lemma registerUser_db (req : request) (w : world) :
  (db (snd (registerUser req w)) = db w
   /\ exists e, fst (registerUser req w) = Throw e)
  \/ exists (u : User.t) (resp : response),
       db (snd (registerUser req w)) = (db w ++ [u])%list
       /\ fst (registerUser req w) = Ok resp
       /\ status resp = 201.
Proof.
  destruct (registerUser req w) as [o w'] eqn:Hrun. simpl.
  unfold registerUser in Hrun.
  assert (Hleft : forall e l fl, (o, w') = (Throw e, mkWorld (db w) l fl) ->
            (db w' = db w /\ exists e, o = Throw e) \/
            exists (u : User.t) (resp : response),
              db w' = (db w ++ [u])%list /\ o = Ok resp /\ status resp = 201).
  { intros e l fl E. inversion E; subst. left. split; [reflexivity|eexists; reflexivity]. }
  destruct (some_field_blank (body req)).
  { symmetry in Hrun. destruct w. eapply Hleft; exact Hrun. }
  unfold User_findOne, bind at 1 2, emit, get_db, ret at 1 in Hrun. simpl in Hrun.
  destruct (find _ (db w)); simpl in Hrun.
  { symmetry in Hrun. eapply Hleft; exact Hrun. }
  destruct (Js.truthy (local_path req Files.avatar)); simpl in Hrun.
  2:{ symmetry in Hrun. eapply Hleft; exact Hrun. }
  unfold upload, bind at 1 2 3 4, emit, ret at 1 2 in Hrun. simpl in Hrun.
  destruct (uploadOnCloudinary (local_path req Files.avatar)) as [av|]; simpl in Hrun.
  2:{ symmetry in Hrun. eapply Hleft; exact Hrun. }
  unfold bind at 1 in Hrun.
  destruct (Body.username (body req)) as [name|]; simpl in Hrun.
  2:{ symmetry in Hrun. eapply Hleft; exact Hrun. }
  unfold User_create, bind at 1 2 3, emit, get_db, ret at 1 in Hrun. simpl in Hrun.
  destruct (Body.email (body req)) as [em|]; simpl in Hrun.
  2:{ symmetry in Hrun. eapply Hleft; exact Hrun. }
  destruct (Body.password (body req)) as [pw|]; simpl in Hrun.
  2:{ symmetry in Hrun. eapply Hleft; exact Hrun. }
  destruct (Body.fullname (body req)) as [fn|]; simpl in Hrun.
  2:{ symmetry in Hrun. eapply Hleft; exact Hrun. }
  destruct (existsb _ (db w)); simpl in Hrun.
  { symmetry in Hrun. eapply Hleft; exact Hrun. }
  unfold User_findById, bind, emit, get_db, put_db, ret in Hrun. simpl in Hrun.
  match type of Hrun with
  | context [lookup (fresh_id (db w)) (db w ++ [?u])] =>
      let Hl := fresh "Hl" in
      assert (Hl : lookup (fresh_id (db w)) (db w ++ [u]) = Some u)
        by (apply (lookup_app_new (db w) u); simpl; apply lookup_fresh;
            unfold fresh_id; lia);
      rewrite Hl in Hrun
  end.
  inversion Hrun; subst. right. eexists. eexists. simpl. repeat split.
Qed.

Lemma registerUser_keeps (req : request) :
  keeps (grown R) (registerUser req).
Proof.
  intros w. destruct (registerUser_db req w) as [[-> _]|(u & resp & -> & _)].
  - apply grown_refl. exact R_refl.
  - exists (db w), [u]. split; [reflexivity|apply F2_refl].
Qed.

End Frames2.

(** ** Requests that fail *)

Lemma readonly_all_or_nothing {A} (m : M A) : readonly m -> all_or_nothing m.
Proof. intros Hm w e _. apply Hm. Qed.

Lemma always_answers_all_or_nothing {A} (m : M A) :
  always_answers m -> all_or_nothing m.
Proof. intros Hm w e E. destruct (Hm w) as [a Ha]. congruence. Qed.

Lemma all_or_nothing_bind_readonly {A B} (m : M A) (k : A -> M B) :
  readonly m -> (forall a, all_or_nothing (k a)) -> all_or_nothing (bind m k).
Proof.
  intros Hm Hk w e. unfold bind. specialize (Hm w).
  destruct (m w) as [[a|e'] w1]; simpl in *; [|intros _; exact Hm].
  intros E. rewrite (Hk a w1 e E). exact Hm.
Qed.

Lemma all_or_nothing_bind_last {A B} (m : M A) (k : A -> M B) :
  all_or_nothing m -> (forall a, always_answers (k a)) -> all_or_nothing (bind m k).
Proof.
  intros Hm Hk w e. unfold bind. specialize (Hm w).
  destruct (m w) as [[a|e'] w1]; simpl in *.
  - intros E. destruct (Hk a w1) as [b Hb]. congruence.
  - intros _. apply (Hm e'). reflexivity.
Qed.

Lemma always_answers_ret {A} (a : A) : always_answers (ret a).
Proof. intros w. exists a. reflexivity. Qed.

Lemma always_answers_bind {A B} (m : M A) (k : A -> M B) :
  always_answers m -> (forall a, always_answers (k a)) -> always_answers (bind m k).
Proof.
  intros Hm Hk w. unfold bind. destruct (Hm w) as [a Ha].
  destruct (m w) as [[a'|e] w1]; simpl in *; [|discriminate].
  apply Hk.
Qed.

Lemma always_answers_unawaited (m : M tokens) : always_answers (unawaited m).
Proof. intros w. unfold unawaited. destruct (m w). exists tt. reflexivity. Qed.

Section Failing.

Context `{Collaborators} `{StoreEdge}.

Lemma User_findById_always_answers (id : option nat) :
  always_answers (User_findById id).
Proof. intros w. eexists. reflexivity. Qed.

Lemma User_findByIdAndUpdate_refreshToken_always_answers
  (i : nat) (v : option string) :
  always_answers (User_findByIdAndUpdate_refreshToken i v).
Proof.
  intros w. unfold User_findByIdAndUpdate_refreshToken, bind, emit, get_db, put_db, ret.
  simpl. destruct (lookup i (db w)); eexists; reflexivity.
Qed.

Lemma User_findByIdAndUpdate_new_always_answers (i : nat) (set : User.t -> User.t) :
  always_answers (User_findByIdAndUpdate_new (Some i) set).
Proof.
  intros w. unfold User_findByIdAndUpdate_new, bind, emit, get_db, put_db, ret.
  simpl. destruct (lookup i (db w)); eexists; reflexivity.
Qed.

Lemma generateTokens_all_or_nothing (userId : nat) :
  all_or_nothing (generateTokens userId).
Proof.
  intros w e. rewrite generateTokens_run.
  destruct (lookup userId (db w)) as [u|]; [|reflexivity].
  destruct (generateAccessToken u); [|reflexivity].
  destruct (generateRefreshToken u); [discriminate|reflexivity].
Qed.

Ltac fails_run :=
  repeat first
    [ apply readonly_all_or_nothing; intros ?; reflexivity
    | apply always_answers_ret
    | apply always_answers_unawaited
    | apply User_findById_always_answers
    | apply User_findByIdAndUpdate_refreshToken_always_answers
    | apply User_findByIdAndUpdate_new_always_answers
    | apply always_answers_bind; [|intros ?]
    | apply all_or_nothing_bind_readonly;
      [ intros ?;
        first [ apply User_findById_readonly | apply User_findOne_readonly
              | apply upload_readonly | apply isPasswordCorrect_readonly
              | apply deref_readonly | apply verified_readonly ]
      | intros ? ]
    | match goal with
      | |- all_or_nothing (if ?b then _ else _) => destruct b
      | |- all_or_nothing (match ?x with _ => _ end) => destruct x
      end ].

Lemma loginUser_all_or_nothing (req : request) : all_or_nothing (loginUser req).
Proof.
  unfold loginUser. fails_run.
  apply all_or_nothing_bind_last; [apply generateTokens_all_or_nothing|].
  intros toks. fails_run.
Qed.

Lemma logoutUser_all_or_nothing (req : request) : all_or_nothing (logoutUser req).
Proof.
  unfold logoutUser. fails_run.
  apply always_answers_all_or_nothing. fails_run.
Qed.

Lemma refreshAcessToken_all_or_nothing (req : request) :
  all_or_nothing (refreshAcessToken req).
Proof.
  unfold refreshAcessToken. fails_run.
  apply always_answers_all_or_nothing. fails_run.
Qed.

Lemma updateAvatar_all_or_nothing (req : file_request) :
  user (request_of req) <> None -> all_or_nothing (updateAvatar req).
Proof.
  intros Hme. unfold updateAvatar. fails_run.
  destruct (user (request_of req)); [|contradiction].
  apply always_answers_all_or_nothing. fails_run.
Qed.

Lemma updateCoverImage_all_or_nothing (req : file_request) :
  user (request_of req) <> None -> all_or_nothing (updateCoverImage req).
Proof.
  intros Hme. unfold updateCoverImage. fails_run.
  destruct (user (request_of req)); [|contradiction].
  apply always_answers_all_or_nothing. fails_run.
Qed.

End Failing.

(** ** What the handlers leave alone *)

Lemma same_person_refl (u : User.t) : same_person u u.
Proof. repeat split. Qed.

Lemma same_person_trans (a b c : User.t) :
  same_person a b -> same_person b c -> same_person a c.
Proof.
  intros (A1 & A2 & A3 & A4) (B1 & B2 & B3 & B4).
  repeat split; congruence.
Qed.

Section LeftAlone.

Context `{Collaborators} `{StoreEdge}.

(** X1.  Login, logout and refresh leave the store with the records it
    had, in the same places, each one as it was in every field but the
    refresh token: no password hash, name, e-mail or image changes and
    no record is added or removed, whatever the request. *)
Theorem session_handlers_touch_only_refreshToken (req : request) (w : world) :
  Forall2 same_but_refreshToken (db w) (db (snd (loginUser req w)))
  /\ Forall2 same_but_refreshToken (db w) (db (snd (logoutUser req w)))
  /\ Forall2 same_but_refreshToken (db w) (db (snd (refreshAcessToken req w))).
Proof.
  assert (Hrefl : forall u, same_but_refreshToken u u) by reflexivity.
  assert (Htrans : forall a b c, same_but_refreshToken a b ->
                     same_but_refreshToken b c -> same_but_refreshToken a c)
    by (unfold same_but_refreshToken; congruence).
  assert (Hset : forall u t, same_but_refreshToken u (User.set_refreshToken t u))
    by reflexivity.
  split; [|split].
  - apply (loginUser_keeps same_but_refreshToken); assumption.
  - apply (logoutUser_keeps same_but_refreshToken); assumption.
  - apply (refreshAcessToken_keeps same_but_refreshToken); assumption.
Qed.

(** X2.  A password change leaves the store with the records it had, in
    the same places, each one as it was in every field but the password
    hash.  The refresh tokens stay as they were: a password change ends
    no session. *)
Theorem changeCurrentPassword_touches_only_password (req : request) (w : world) :
  Forall2 same_but_password (db w) (db (snd (changeCurrentPassword req w)))
  /\ map User.refreshToken (db (snd (changeCurrentPassword req w)))
     = map User.refreshToken (db w).
Proof.
  assert (Hrefl : forall u, same_but_password u u) by reflexivity.
  assert (Htrans : forall a b c, same_but_password a b ->
                     same_but_password b c -> same_but_password a c)
    by (unfold same_but_password; congruence).
  assert (Hset : forall u p, same_but_password u (User.set_password p u))
    by reflexivity.
  assert (Hkept : Forall2 same_but_password (db w)
                    (db (snd (changeCurrentPassword req w))))
    by (apply (changeCurrentPassword_keeps same_but_password); assumption).
  split; [exact Hkept|].
  induction Hkept as [|u v l l' Huv _ IH]; [reflexivity|].
  simpl. rewrite IH. f_equal.
  unfold same_but_password in Huv. inversion Huv. reflexivity.
Qed.

(** X3.  An avatar update by a request that carries a user leaves every
    record as it was in every field but the avatar, and a cover-image
    update in every field but the cover image; neither adds or removes
    a record. *)
Theorem image_updates_touch_only_their_image (req : file_request) (w : world) :
  user (request_of req) <> None ->
  Forall2 same_but_avatar (db w) (db (snd (updateAvatar req w)))
  /\ Forall2 same_but_coverImage (db w) (db (snd (updateCoverImage req w))).
Proof.
  intros Hme. split.
  - apply (updateAvatar_keeps same_but_avatar); auto.
    + reflexivity.
    + unfold same_but_avatar; congruence.
    + reflexivity.
  - apply (updateCoverImage_keeps same_but_coverImage); auto.
    + reflexivity.
    + unfold same_but_coverImage; congruence.
    + reflexivity.
Qed.

Lemma handle_keeps_people (c : call) (w : world) :
  carries_user c = true ->
  grown same_person (db w) (db (snd (handle c w))).
Proof.
  pose proof same_person_refl as Hrefl. pose proof same_person_trans as Htrans.
  assert (Htok : forall u t, same_person u (User.set_refreshToken t u))
    by (intros; repeat split).
  intros Hc. destruct c as [req|req|req|req|req|req|req]; simpl.
  - apply (registerUser_keeps same_person); assumption.
  - apply Forall2_grown. apply (loginUser_keeps same_person); assumption.
  - apply Forall2_grown. apply (logoutUser_keeps same_person); assumption.
  - apply Forall2_grown. apply (refreshAcessToken_keeps same_person); assumption.
  - apply Forall2_grown. apply (changeCurrentPassword_keeps same_person);
      try assumption.
    intros; repeat split.
  - apply Forall2_grown. apply (updateAvatar_keeps same_person); try assumption.
    + simpl in Hc. destruct (user (request_of req)); congruence.
    + intros; repeat split.
  - apply Forall2_grown. apply (updateCoverImage_keeps same_person);
      try assumption.
    + simpl in Hc. destruct (user (request_of req)); congruence.
    + intros; repeat split.
Qed.

(** X4.  Through any sequence of register, login, logout, refresh,
    password-change, avatar and cover-image requests (the image requests
    carrying a user), served one after the other: every record the store
    held at the start is still there at the end, in the same place, with
    the same [_id], username, e-mail and full name; what is new comes
    after.  None of these handlers removes or renames a user. *)
Theorem serve_keeps_people (cs : list call) (w : world) :
  forallb carries_user cs = true ->
  grown same_person (db w) (db (serve cs w)).
Proof.
  revert w. induction cs as [|c rest IH]; intros w Hcs; simpl.
  - apply grown_refl. apply same_person_refl.
  - simpl in Hcs. apply andb_true_iff in Hcs. destruct Hcs as [Hc Hrest].
    apply (grown_trans _ _ (db (snd (handle c w)))).
    + apply same_person_trans.
    + apply handle_keeps_people. exact Hc.
    + apply IH. exact Hrest.
Qed.

(** X5.  The rejections these handlers issue themselves come before
    their first write.  Whenever one of them throws an [ApiError], other
    than the "Failed to create user" that [registerUser] throws after
    the record was written when it cannot read it back, the store is the
    one the request found.  (Uploads already made are not undone: they
    are in the call log.  The store is one whose calls complete; the
    errors a store raises itself are not [ApiError]s and are outside
    this statement.) *)
Theorem failed_request_leaves_store
  (c : call) (w : world) (code : nat) (msg : string) :
  carries_user c = true ->
  fst (handle c w) = Throw (ApiError code msg) ->
  msg <> "Failed to create user" ->
  db (snd (handle c w)) = db w.
Proof.
  intros Hc Hthrow _. revert Hthrow. generalize (ApiError code msg). intros e.
  destruct c as [req|req|req|req|req|req|req]; simpl; intros Hthrow.
  - destruct (registerUser_db req w) as [[E _]|(u & resp & _ & E & _)];
      [exact E|congruence].
  - apply (loginUser_all_or_nothing req w e Hthrow).
  - apply (logoutUser_all_or_nothing req w e Hthrow).
  - apply (refreshAcessToken_all_or_nothing req w e Hthrow).
  - destruct (changeCurrentPassword_db req w)
      as [[E _]|(me & u & cur & new & _ & _ & _ & _ & _ & _ & _ & _ & resp & E)];
      [exact E|congruence].
  - refine (updateAvatar_all_or_nothing req _ w e Hthrow).
    simpl in Hc. destruct (user (request_of req)); congruence.
  - refine (updateCoverImage_all_or_nothing req _ w e Hthrow).
    simpl in Hc. destruct (user (request_of req)); congruence.
Qed.

End LeftAlone.

Lemma image_updates_touch_only_their_image_witness :
  Forall2 same_but_avatar (db Sample.world3)
    (db (snd (@updateAvatar Demo.collaborators Sample.store_edge
                Sample.new_avatar Sample.world3)))
  /\ Forall2 same_but_coverImage (db Sample.world3)
       (db (snd (@updateCoverImage Demo.collaborators Sample.store_edge
                   Sample.new_avatar Sample.world3))).
Proof.
  apply (@image_updates_touch_only_their_image Demo.collaborators Sample.store_edge).
  discriminate.
Defined.

(** A store with two users, one of them logged in, goes through a
    login, an avatar update, a refresh, a password change, a logout and
    the registration of a third user: the two are still there, first and
    second, under their names. *)
Lemma serve_keeps_people_witness :
  grown same_person (db Sample.world3)
    (db (@serve Demo.collaborators Sample.store_edge
           [ Login Demo.login_ava; UpdateAvatar Sample.new_avatar;
             Refresh Demo.refresh_ava;
             ChangePassword (Demo.change_password "p1" "p2" "p2");
             Logout Demo.logout_ava; Register Sample.register_cy ]
           Sample.world3))
  /\ map User.username
       (db (@serve Demo.collaborators Sample.store_edge
              [ Login Demo.login_ava; UpdateAvatar Sample.new_avatar;
                Refresh Demo.refresh_ava;
                ChangePassword (Demo.change_password "p1" "p2" "p2");
                Logout Demo.logout_ava; Register Sample.register_cy ]
              Sample.world3))
     = ["ava"; "bo"; "cy"].
Proof.
  split; [|reflexivity].
  apply (@serve_keeps_people Demo.collaborators Sample.store_edge).
  reflexivity.
Defined.

Lemma failed_request_leaves_store_witness :
  db (snd (@handle Demo.collaborators Sample.store_edge
             (Login Demo.login_wrong) Sample.world3))
  = db Sample.world3.
Proof.
  apply (@failed_request_leaves_store Demo.collaborators Sample.store_edge
           (Login Demo.login_wrong) Sample.world3
           400 "Invalid username or password").
  - reflexivity.
  - reflexivity.
  - discriminate.
Defined.

(** ** More about registration *)

Lemma find_last {A} (f : A -> bool) (l : list A) (c : A) :
  (forall x, In x l -> f x = false) -> f c = true ->
  find f (l ++ [c]) = Some c.
Proof.
  intros Hl Hc. induction l as [|x r IH]; simpl.
  - rewrite Hc. reflexivity.
  - rewrite (Hl x (or_introl eq_refl)). apply IH.
    intros y Hy. apply Hl. right. exact Hy.
Qed.

Section RegistrationPaths.

Context `{Collaborators}.

(** X6.  A registration that passes the blank-field guard and names a
    username or an e-mail some record already has is rejected with the
    ConflictError "User already exists" (status 409), whether or not it
    carries an avatar: the one collaborator call made is the duplicate
    check, nothing is uploaded and the store is as it was. *)
Theorem registerUser_duplicate_rejected (req : request) (w : world) (u : User.t) :
  some_field_blank (body req) = false ->
  find (matches_or (Body.username (body req)) (Body.email (body req))) (db w)
    = Some u ->
  registerUser req w
    = (Throw (ApiError 409 "User already exists"),
       called (FindOne (Body.username (body req)) (Body.email (body req))) w)
  /\ kind_of (ApiError 409 "User already exists") = ConflictError.
Proof.
  intros Hguard Hfound. split; [|reflexivity].
  unfold registerUser. rewrite Hguard.
  unfold User_findOne, bind, emit, get_db, ret. simpl. rewrite Hfound. reflexivity.
Qed.

(** X7.  A registration that passes the blank-field guard and the
    duplicate check and brings no avatar file (no files at all, no
    avatar entry, an empty one, or a file without a path) is rejected
    with the ValidationError "Avatar is required" (status 400) before
    anything is uploaded; the store is as it was. *)
Theorem registerUser_avatar_required (req : request) (w : world) :
  some_field_blank (body req) = false ->
  find (matches_or (Body.username (body req)) (Body.email (body req))) (db w)
    = None ->
  match files req with
  | None => True
  | Some fs =>
      match Files.avatar fs with
      | None | Some [] => True
      | Some (f :: _) => Files.path f = ""
      end
  end ->
  registerUser req w
    = (Throw (ApiError 400 "Avatar is required"),
       called (FindOne (Body.username (body req)) (Body.email (body req))) w)
  /\ kind_of (ApiError 400 "Avatar is required") = ValidationError.
Proof.
  intros Hguard Hnone Hfile. split; [|reflexivity].
  assert (Hpath : Js.truthy (local_path req Files.avatar) = false).
  { unfold local_path. destruct (files req) as [fs|]; [|reflexivity].
    unfold first_path. destruct (Files.avatar fs) as [[|f r]|]; try reflexivity.
    simpl. rewrite Hfile. reflexivity. }
  unfold registerUser. rewrite Hguard.
  unfold User_findOne, bind, emit, get_db, ret. simpl. rewrite Hnone. simpl.
  rewrite Hpath. reflexivity.
Qed.

(** X8.  A registration without a username, its other fields not blank,
    its e-mail unknown to the store and its avatar accepted by the media
    host, is not rejected as invalid: it fails with a TypeError at
    [username.toLowerCase()], after both uploads have been made.  No
    record is created. *)
Theorem registerUser_absent_username_fails_after_uploads
  (req : request) (w : world) (p : string) (av : Upload.result) :
  Body.username (body req) = None ->
  some_field_blank (body req) = false ->
  find (matches_or None (Body.email (body req))) (db w) = None ->
  local_path req Files.avatar = Some p ->
  p <> "" ->
  uploadOnCloudinary (Some p) = Some av ->
  registerUser req w
  = (Throw (TypeError "Cannot read properties of null or undefined"),
     mkWorld (db w)
       (Upload (local_path req Files.coverImage) :: Upload (Some p)
        :: FindOne None (Body.email (body req)) :: log w)
       (floating w)).
Proof.
  intros Hun Hguard Hnone Hpath Hp Hav.
  unfold registerUser. rewrite Hguard, Hun, Hpath, (truthy_some _ Hp).
  unfold User_findOne, upload, bind, emit, get_db, ret. simpl.
  rewrite Hnone. simpl. rewrite Hav. reflexivity.
Qed.

(** The run of a registration that is served. *)
Lemma registerUser_served
  (req : request) (w : world) (un em pw fn p : string) (av : Upload.result) :
  Body.username (body req) = Some un ->
  Body.email (body req) = Some em ->
  Body.password (body req) = Some pw ->
  Body.fullname (body req) = Some fn ->
  Js.trim un <> "" -> Js.trim em <> "" -> Js.trim pw <> "" -> Js.trim fn <> "" ->
  (forall u, In u (db w) ->
     User.username u <> un /\ User.email u <> em
     /\ User.username u <> Js.toLowerCase un) ->
  local_path req Files.avatar = Some p -> p <> "" ->
  uploadOnCloudinary (Some p) = Some av ->
  let created :=
    User.mk (fresh_id (db w)) (Js.toLowerCase un) em (bcrypt_hash pw) fn
      (Upload.url av)
      (or_empty (option_map Upload.url
                   (uploadOnCloudinary (local_path req Files.coverImage))))
      None in
  registerUser req w
  = (Ok (mkResponse 201 []
           (mkApiResponse 200
              (Js.Obj (User.select_without ["password"; "refreshToken"]
                         (User.toObject created)))
              "User created successfully")),
     mkWorld (db w ++ [created])
       (FindById (Some (fresh_id (db w))) :: Create (Js.toLowerCase un)
        :: Upload (local_path req Files.coverImage) :: Upload (Some p)
        :: FindOne (Some un) (Some em) :: log w)
       (floating w)).
Proof.
  intros Hun Hem Hpw Hfn Tun Tem Tpw Tfn Hfree Hpath Hp Hav created.
  assert (Hguard : some_field_blank (body req) = false).
  { apply some_field_blank_false. rewrite Hun, Hem, Hpw, Hfn.
    intros s [E|[E|[E|[E|[]]]]]; inversion E; subst; assumption. }
  assert (Hnone : find (matches_or (Some un) (Some em)) (db w) = None).
  { apply findOne_none. intros u Hu. destruct (Hfree u Hu) as (A & B & _).
    split; congruence. }
  assert (Hdup : existsb (fun u => (User.username u =? Js.toLowerCase un)
                                   || (User.email u =? em)) (db w) = false).
  { destruct (existsb _ (db w)) eqn:E; [|reflexivity].
    apply existsb_exists in E. destruct E as (u & Hu & Hm).
    destruct (Hfree u Hu) as (_ & B & C).
    apply orb_true_iff in Hm. destruct Hm as [Hm|Hm]; apply String.eqb_eq in Hm;
      contradiction. }
  assert (Hnew : lookup (fresh_id (db w)) (db w ++ [created]) = Some created).
  { apply (lookup_app_new (db w) created). simpl. apply lookup_fresh.
    unfold fresh_id. lia. }
  unfold registerUser. rewrite Hguard, Hun, Hem, Hpw, Hfn, Hpath.
  rewrite (truthy_some _ Hp).
  unfold User_findOne, upload, bind, emit, get_db, ret, throw. simpl.
  rewrite Hnone. simpl. rewrite Hav. simpl.
  unfold User_create, User_findById, bind, emit, get_db, put_db, ret, throw. simpl.
  rewrite Hdup. simpl. fold created. rewrite Hnew. reflexivity.
Qed.

(** X9.  A registration that is served answers with HTTP status 201 and
    an envelope whose own status code is 200.  The user in the answer
    has the username in lower case, the URL of the avatar, the URL of
    the cover image when one was hosted and the empty string when not,
    and neither a [password] nor a [refreshToken] field. *)
Theorem registerUser_answer
  (req : request) (w : world) (un em pw fn p : string) (av : Upload.result) :
  Body.username (body req) = Some un ->
  Body.email (body req) = Some em ->
  Body.password (body req) = Some pw ->
  Body.fullname (body req) = Some fn ->
  Js.trim un <> "" -> Js.trim em <> "" -> Js.trim pw <> "" -> Js.trim fn <> "" ->
  (forall u, In u (db w) ->
     User.username u <> un /\ User.email u <> em
     /\ User.username u <> Js.toLowerCase un) ->
  local_path req Files.avatar = Some p -> p <> "" ->
  uploadOnCloudinary (Some p) = Some av ->
  exists doc,
    fst (registerUser req w)
    = Ok (mkResponse 201 []
            (mkApiResponse 200 (Js.Obj doc) "User created successfully"))
    /\ Js.get "username" doc = Some (Js.Str (Js.toLowerCase un))
    /\ Js.get "email" doc = Some (Js.Str em)
    /\ Js.get "avatar" doc = Some (Js.Str (Upload.url av))
    /\ Js.get "coverImage" doc
       = Some (Js.Str match uploadOnCloudinary (local_path req Files.coverImage) with
                      | Some cov => Upload.url cov
                      | None => ""
                      end)
    /\ Js.has "password" doc = false
    /\ Js.has "refreshToken" doc = false.
Proof.
  intros Hun Hem Hpw Hfn Tun Tem Tpw Tfn Hfree Hpath Hp Hav.
  rewrite (registerUser_served req w un em pw fn p av); try assumption.
  eexists. split; [reflexivity|]. simpl. repeat split.
  f_equal. f_equal. unfold or_empty, Js.or.
  destruct (uploadOnCloudinary (local_path req Files.coverImage)) as [cov|];
    [|reflexivity].
  simpl. destruct (Upload.url cov =? "") eqn:E; [|reflexivity].
  apply String.eqb_eq in E. rewrite E. reflexivity.
Qed.

(** X10.  Register, then log in.  After a registration that is served,
    a login with the username in lower case, or with the e-mail, and
    the password that was registered is served too (status 200),
    provided the hash scheme is sound and the two tokens can be signed
    for the new record. *)
Theorem register_then_login
  (req reqIn : request) (w : world) (un em pw fn p a r : string)
  (av : Upload.result) :
  sound_hash ->
  Body.username (body req) = Some un ->
  Body.email (body req) = Some em ->
  Body.password (body req) = Some pw ->
  Body.fullname (body req) = Some fn ->
  Js.trim un <> "" -> Js.trim em <> "" -> Js.trim pw <> "" -> Js.trim fn <> "" ->
  (forall u, In u (db w) ->
     User.username u <> un /\ User.email u <> em
     /\ User.username u <> Js.toLowerCase un) ->
  local_path req Files.avatar = Some p -> p <> "" ->
  uploadOnCloudinary (Some p) = Some av ->
  (forall u, User.username u = Js.toLowerCase un ->
     generateAccessToken u = Some a /\ generateRefreshToken u = Some r) ->
  (Body.username (body reqIn) = Some (Js.toLowerCase un)
   /\ Body.email (body reqIn) = None)
  \/ (Body.username (body reqIn) = None /\ Body.email (body reqIn) = Some em) ->
  Body.password (body reqIn) = Some pw ->
  exists resp,
    fst (loginUser reqIn (snd (registerUser req w))) = Ok resp
    /\ status resp = 200
    /\ cookie_actions resp
       = [ Cookie "accessToken" (Js.Str a) (mkOptions true true);
           Cookie "refreshToken" (Js.Str r) (mkOptions true true) ].
Proof.
  intros Hsound Hun Hem Hpw Hfn Tun Tem Tpw Tfn Hfree Hpath Hp Hav Hsign Hid HpwIn.
  rewrite (registerUser_served req w un em pw fn p av); try assumption.
  simpl.
  set (created := User.mk (fresh_id (db w)) (Js.toLowerCase un) em (bcrypt_hash pw)
                    fn (Upload.url av) _ None).
  assert (Hne : forall s, Js.trim s <> "" -> s <> "").
  { intros s Hs E. subst s. apply Hs. reflexivity. }
  assert (Hlow : Js.toLowerCase un <> "").
  { destruct un; [exfalso; apply Tun; reflexivity|discriminate]. }
  assert (Hfind : find (matches_or (Body.username (body reqIn))
                          (Body.email (body reqIn))) (db w ++ [created])
                  = Some created).
  { apply find_last.
    - intros x Hx. destruct (Hfree x Hx) as (_ & B & C).
      unfold matches_or. destruct Hid as [[-> ->]|[-> ->]]; simpl.
      + rewrite orb_false_r. apply String.eqb_neq. congruence.
      + apply String.eqb_neq. congruence.
    - unfold matches_or. destruct Hid as [[-> ->]|[-> ->]]; simpl;
        rewrite String.eqb_refl; reflexivity. }
  assert (Hnew : lookup (fresh_id (db w)) (db w ++ [created]) = Some created).
  { apply (lookup_app_new (db w) created). simpl. apply lookup_fresh.
    unfold fresh_id. lia. }
  destruct (Hsign created eq_refl) as [Ha Hr].
  assert (Hident : negb (Js.truthy (Body.username (body reqIn)))
                   && negb (Js.truthy (Body.email (body reqIn))) = false).
  { destruct Hid as [[-> ->]|[-> ->]]; simpl.
    - apply String.eqb_neq in Hlow. rewrite Hlow. reflexivity.
    - assert (E : (em =? "") = false) by (apply String.eqb_neq; auto).
      rewrite E. reflexivity. }
  unfold loginUser. rewrite Hident, HpwIn, (truthy_some _ (Hne _ Tpw)). simpl.
  unfold User_findOne, bind at 1 2, emit, get_db, ret at 1. simpl.
  rewrite Hfind. unfold bind at 1. simpl.
  assert (Hok : bcrypt_compare pw (bcrypt_hash pw) = true)
    by (apply Hsound; reflexivity).
  rewrite Hok. simpl. unfold bind at 1. rewrite generateTokens_run. simpl.
  rewrite Hnew, Ha, Hr.
  unfold User_findById, bind, emit, get_db, ret. simpl.
  eexists. split; [reflexivity|]. split; reflexivity.
Qed.

End RegistrationPaths.

Lemma registerUser_duplicate_rejected_witness :
  @registerUser Demo.collaborators Sample.register_again Demo.world1
  = (Throw (ApiError 409 "User already exists"),
     called (FindOne (Some "ava") (Some "other@x.com")) Demo.world1)
  /\ kind_of (ApiError 409 "User already exists") = ConflictError.
Proof.
  apply (@registerUser_duplicate_rejected Demo.collaborators
           Sample.register_again Demo.world1 Demo.ava); reflexivity.
Defined.

Lemma registerUser_avatar_required_witness :
  @registerUser Demo.collaborators Sample.register_again Demo.world0
  = (Throw (ApiError 400 "Avatar is required"),
     called (FindOne (Some "ava") (Some "other@x.com")) Demo.world0)
  /\ kind_of (ApiError 400 "Avatar is required") = ValidationError.
Proof.
  apply (@registerUser_avatar_required Demo.collaborators
           Sample.register_again Demo.world0); try reflexivity; exact I.
Defined.

Lemma registerUser_absent_username_fails_after_uploads_witness :
  @registerUser Demo.collaborators Sample.register_nameless Demo.world1
  = (Throw (TypeError "Cannot read properties of null or undefined"),
     mkWorld [Demo.ava]
       [Upload None; Upload (Some "tmp/avatar.png"); FindOne None (Some "new@x.com")]
       []).
Proof.
  refine (@registerUser_absent_username_fails_after_uploads Demo.collaborators
            Sample.register_nameless Demo.world1 "tmp/avatar.png"
            (Upload.mk "https://media.example/avatar.png")
            eq_refl eq_refl eq_refl eq_refl _ eq_refl).
  discriminate.
Defined.

Lemma registerUser_answer_witness :
  exists doc,
    fst (@registerUser Demo.collaborators Demo.register_ava Demo.world0)
    = Ok (mkResponse 201 []
            (mkApiResponse 200 (Js.Obj doc) "User created successfully"))
    /\ Js.get "username" doc = Some (Js.Str "ava")
    /\ Js.get "email" doc = Some (Js.Str "a@x.com")
    /\ Js.get "avatar" doc = Some (Js.Str "https://media.example/avatar.png")
    /\ Js.get "coverImage" doc = Some (Js.Str "")
    /\ Js.has "password" doc = false
    /\ Js.has "refreshToken" doc = false.
Proof.
  refine (@registerUser_answer Demo.collaborators Demo.register_ava Demo.world0
            "Ava" "a@x.com" "p1" "Ava A" "tmp/avatar.png"
            (Upload.mk "https://media.example/avatar.png")
            eq_refl eq_refl eq_refl eq_refl _ _ _ _ _ eq_refl _ eq_refl);
    try discriminate.
  intros u [].
Defined.

Lemma register_then_login_witness :
  exists resp,
    fst (@loginUser Demo.collaborators Demo.login_ava
           (snd (@registerUser Demo.collaborators Demo.register_ava Demo.world0)))
    = Ok resp
    /\ status resp = 200
    /\ cookie_actions resp
       = [ Cookie "accessToken" (Js.Str "access:ava") (mkOptions true true);
           Cookie "refreshToken" (Js.Str "refresh:ava") (mkOptions true true) ].
Proof.
  refine (@register_then_login Demo.collaborators Demo.register_ava Demo.login_ava
            Demo.world0 "Ava" "a@x.com" "p1" "Ava A" "tmp/avatar.png"
            "access:ava" "refresh:ava"
            (Upload.mk "https://media.example/avatar.png")
            demo_sound_hash
            eq_refl eq_refl eq_refl eq_refl _ _ _ _ _ eq_refl _ eq_refl _ _ eq_refl);
    try discriminate.
  - intros u [].
  - intros u Hu. simpl. rewrite Hu. split; reflexivity.
  - left. split; reflexivity.
Defined.

(** ** More about login, refresh and logout *)

Lemma replace_again (l : list User.t) (v : User.t) :
  replace v (replace v l) = replace v l.
Proof.
  induction l as [|x r IH]; simpl; [reflexivity|].
  destruct (by_id (User._id v) x) eqn:E; simpl.
  - unfold by_id. rewrite Nat.eqb_refl. reflexivity.
  - rewrite E, IH. reflexivity.
Qed.

Section SessionPaths.

Context `{Collaborators}.

(** X11.  A login request is checked for an identifier first and for a
    password second, before the store is asked anything.  Without a
    username and without an e-mail (absent or empty) it fails with the
    ValidationError "either username or email is required", whatever the
    password; with an identifier and without a password (absent or
    empty) it fails with the ValidationError "password is required".
    Both have status 400 and leave the world untouched. *)
Theorem loginUser_validation (req : request) (w : world) :
  (Js.truthy (Body.username (body req)) = false ->
   Js.truthy (Body.email (body req)) = false ->
   loginUser req w
   = (Throw (ApiError 400 "either username or email is required"), w))
  /\ (Js.truthy (Body.username (body req)) || Js.truthy (Body.email (body req))
      = true ->
      Js.truthy (Body.password (body req)) = false ->
      loginUser req w = (Throw (ApiError 400 "password is required"), w))
  /\ kind_of (ApiError 400 "either username or email is required") = ValidationError
  /\ kind_of (ApiError 400 "password is required") = ValidationError.
Proof.
  split; [|split; [|split; reflexivity]].
  - intros Hu He. unfold loginUser. rewrite Hu, He. reflexivity.
  - intros Hid Hpw. unfold loginUser.
    rewrite <- negb_orb, Hid, Hpw. reflexivity.
Qed.

(** X12.  A login with a known identifier and the right password whose
    tokens cannot be signed fails with the InternalError "something went
    wrong while generating tokens" (status 500): no cookie is set and
    no refresh token is stored. *)
Theorem loginUser_signing_failure (req : request) (w : world) (u v : User.t) (p : string) :
  Js.truthy (Body.username (body req)) || Js.truthy (Body.email (body req)) = true ->
  Body.password (body req) = Some p ->
  p <> "" ->
  find (matches_or (Body.username (body req)) (Body.email (body req))) (db w)
    = Some u ->
  bcrypt_compare p (User.password u) = true ->
  lookup (User._id u) (db w) = Some v ->
  generateAccessToken v = None \/ generateRefreshToken v = None ->
  fst (loginUser req w)
    = Throw (ApiError 500 "something went wrong while generating tokens")
  /\ db (snd (loginUser req w)) = db w.
Proof.
  intros Hid Hpw Hp Hfound Hok Hv Hsign.
  assert (Hrun :
    loginUser req w
    = (Throw (ApiError 500 "something went wrong while generating tokens"),
       mkWorld (db w)
         (FindById (Some (User._id u))
          :: FindOne (Body.username (body req)) (Body.email (body req)) :: log w)
         (floating w))).
  { unfold loginUser. rewrite <- negb_orb, Hid, Hpw, (truthy_some _ Hp). simpl.
    unfold User_findOne, bind at 1 2, emit, get_db, ret at 1. simpl.
    rewrite Hfound. unfold bind at 1. simpl. rewrite Hok. simpl.
    unfold bind at 1. rewrite generateTokens_run. simpl. rewrite Hv.
    destruct Hsign as [E|E]; rewrite E; [reflexivity|].
    destruct (generateAccessToken v); reflexivity. }
  rewrite Hrun. split; reflexivity.
Qed.

(** X13.  A refresh request whose token verifies for a user with a
    record is rejected whenever that token is not the one stored on the
    record, be it that another was issued since or that none is stored:
    it fails with the ExpiredOrReusedTokenError "refresh token is
    expired or used" (status 400), no token is issued and the store is
    as it was. *)
Theorem refreshAcessToken_mismatch_rejected
  (req : request) (w : world) (tok : string) (i : nat) (u : User.t) :
  incoming req = Some tok ->
  tok <> "" ->
  jwt_verify tok = inr (Some i) ->
  lookup i (db w) = Some u ->
  User.refreshToken u <> Some tok ->
  refreshAcessToken req w
  = (Throw (ApiError 400 "refresh token is expired or used"),
     called (FindById (Some i)) w).
Proof.
  intros Hin Htok Hver Hu Hdiff.
  rewrite (refreshAcessToken_verified _ _ _ _ Hin Htok Hver).
  cbv beta zeta. rewrite Hu.
  rewrite strict_eq_false; [reflexivity|]. congruence.
Qed.

(** X14.  The refresh token in the cookie wins over the one in the
    body: two refresh requests with the same non-empty cookie token are
    treated alike, whatever their bodies say.  A valid token in the body
    is not looked at when the cookie holds another. *)
Theorem refreshAcessToken_cookie_first (req req' : request) (w : world) :
  Js.truthy (Cookies.refreshToken (cookies req)) = true ->
  Cookies.refreshToken (cookies req') = Cookies.refreshToken (cookies req) ->
  refreshAcessToken req' w = refreshAcessToken req w.
Proof.
  intros Hcookie Hsame. unfold refreshAcessToken, Js.or.
  rewrite Hsame, Hcookie. reflexivity.
Qed.

(** X15.  A refresh request that is served spends the token it
    presented while handing no token back: once the call that was not
    awaited has stored the refresh token [r] it signed, the same request
    made again fails with "refresh token is expired or used" (status
    400) whenever [r] is not the token presented. *)
Theorem refreshAcessToken_spends_the_token
  (req : request) (w : world) (tok a r : string) (u : User.t) :
  incoming req = Some tok ->
  tok <> "" ->
  jwt_verify tok = inr (Some (User._id u)) ->
  lookup (User._id u) (db w) = Some u ->
  User.refreshToken u = Some tok ->
  generateAccessToken u = Some a ->
  generateRefreshToken u = Some r ->
  r <> tok ->
  fst (refreshAcessToken req w) = Ok refresh_response
  /\ option_map User.refreshToken
       (lookup (User._id u) (db (snd (refreshAcessToken req w)))) = Some (Some r)
  /\ fst (refreshAcessToken req (snd (refreshAcessToken req w)))
     = Throw (ApiError 400 "refresh token is expired or used").
Proof.
  intros Hin Htok Hver Hu Hstored Ha Hr Hne.
  assert (Hrun : refreshAcessToken req w
                 = (Ok refresh_response,
                    mkWorld (replace (User.set_refreshToken (Some r) u) (db w))
                      (Save (User._id u) :: FindById (Some (User._id u))
                       :: FindById (Some (User._id u)) :: log w)
                      (Ok (mkTokens a r) :: floating w))).
  { rewrite (refreshAcessToken_verified _ _ _ _ Hin Htok Hver). simpl.
    rewrite Hu, Hstored. simpl. rewrite String.eqb_refl.
    rewrite generateTokens_run. simpl. rewrite Hu, Ha, Hr. reflexivity. }
  assert (Hnew : lookup (User._id u) (replace (User.set_refreshToken (Some r) u) (db w))
                 = Some (User.set_refreshToken (Some r) u)).
  { apply (lookup_replace (db w) u (User.set_refreshToken (Some r) u)). exact Hu. }
  rewrite Hrun. simpl. rewrite Hnew. simpl.
  split; [reflexivity|]. split; [reflexivity|].
  rewrite (refreshAcessToken_verified _ _ _ _ Hin Htok Hver). simpl.
  rewrite Hnew. simpl.
  assert (E : (tok =? r) = false) by (apply String.eqb_neq; congruence).
  rewrite E. reflexivity.
Qed.

(** X16.  A logout by a request that carries a user always answers with
    status 200 and clears both cookies, whether that user has a record
    and a stored token or not, and a second logout leaves the store as
    the first one left it.  Without a user the handler throws a
    TypeError before any store call. *)
Theorem logoutUser_repeatable (req : request) (w : world) :
  match user req with
  | Some _ =>
      fst (logoutUser req w)
      = Ok (mkResponse 200
              [ ClearCookie "accessToken" (mkOptions true true);
                ClearCookie "refreshToken" (mkOptions true true) ]
              (mkApiResponse 200 (Js.Obj []) "User logged out successfully"))
      /\ db (snd (logoutUser req (snd (logoutUser req w))))
         = db (snd (logoutUser req w))
  | None =>
      logoutUser req w
      = (Throw (TypeError "Cannot read properties of null or undefined"), w)
  end.
Proof.
  destruct (user req) as [me|] eqn:Hme.
  - rewrite !(logoutUser_run _ _ _ Hme). simpl. split; [reflexivity|].
    destruct (lookup (User._id me) (db w)) as [v|] eqn:Hv; [|rewrite Hv; reflexivity].
    pose proof (lookup_id _ _ _ Hv) as Hid.
    destruct omitUndefined.
    + rewrite (replace_same (db w) v) by (rewrite Hid; exact Hv).
      rewrite Hv. apply replace_same. rewrite Hid. exact Hv.
    + assert (Hl : lookup (User._id me) (replace (User.set_refreshToken None v) (db w))
                   = Some (User.set_refreshToken None v)).
      { rewrite <- Hid.
        apply (lookup_replace (db w) v (User.set_refreshToken None v)).
        simpl. rewrite Hid. exact Hv. }
      rewrite Hl. simpl. apply replace_again.
  - unfold logoutUser. rewrite Hme. reflexivity.
Qed.

End SessionPaths.

Lemma loginUser_validation_witness :
  @loginUser Demo.collaborators
     (mkRequest (Body.mk (Some "") None (Some "p1") None None None None)
        Cookies.empty None None) Demo.world1
  = (Throw (ApiError 400 "either username or email is required"), Demo.world1)
  /\ @loginUser Demo.collaborators
       (mkRequest (Body.mk None (Some "a@x.com") None None None None None)
          Cookies.empty None None) Demo.world1
     = (Throw (ApiError 400 "password is required"), Demo.world1).
Proof.
  split.
  - apply (proj1 (@loginUser_validation Demo.collaborators _ Demo.world1));
      reflexivity.
  - apply (proj1 (proj2 (@loginUser_validation Demo.collaborators _ Demo.world1)));
      reflexivity.
Defined.

Lemma loginUser_signing_failure_witness :
  fst (@loginUser Sample.unsigned Demo.login_ava Demo.world1)
    = Throw (ApiError 500 "something went wrong while generating tokens")
  /\ db (snd (@loginUser Sample.unsigned Demo.login_ava Demo.world1))
     = db Demo.world1.
Proof.
  refine (@loginUser_signing_failure Sample.unsigned Demo.login_ava Demo.world1
            Demo.ava Demo.ava "p1" eq_refl eq_refl _ eq_refl eq_refl eq_refl
            (or_intror eq_refl)).
  discriminate.
Defined.

(** The user of [Demo.world1] has logged out; the token of the earlier
    session is presented. *)
Lemma refreshAcessToken_mismatch_rejected_witness :
  @refreshAcessToken Demo.collaborators Demo.refresh_ava Demo.world1
  = (Throw (ApiError 400 "refresh token is expired or used"),
     called (FindById (Some 1)) Demo.world1).
Proof.
  refine (@refreshAcessToken_mismatch_rejected Demo.collaborators
            Demo.refresh_ava Demo.world1 "refresh:ava" 1 Demo.ava
            eq_refl _ eq_refl eq_refl _); discriminate.
Defined.

(** The stored token in the body, a forged one in the cookie: treated as
    the forged one alone. *)
Lemma refreshAcessToken_cookie_first_witness :
  @refreshAcessToken Demo.collaborators
     (Sample.refresh_both "forged" "refresh:ava") Demo.world2
  = @refreshAcessToken Demo.collaborators
      (Sample.refresh_both "forged" "forged") Demo.world2.
Proof.
  apply (@refreshAcessToken_cookie_first Demo.collaborators); reflexivity.
Defined.

Lemma refreshAcessToken_spends_the_token_witness :
  fst (@refreshAcessToken Sample.rotating Demo.refresh_ava Demo.world2)
    = Ok refresh_response
  /\ option_map User.refreshToken
       (lookup 1 (db (snd (@refreshAcessToken Sample.rotating
                             Demo.refresh_ava Demo.world2))))
     = Some (Some "refresh:ava+")
  /\ fst (@refreshAcessToken Sample.rotating Demo.refresh_ava
            (snd (@refreshAcessToken Sample.rotating Demo.refresh_ava Demo.world2)))
     = Throw (ApiError 400 "refresh token is expired or used").
Proof.
  refine (@refreshAcessToken_spends_the_token Sample.rotating Demo.refresh_ava
            Demo.world2 "refresh:ava" "access:ava" "refresh:ava+" Demo.ava_in
            eq_refl _ eq_refl eq_refl eq_refl eq_refl eq_refl _); discriminate.
Defined.

(** ** More about the password change *)

Lemma find_replace (f : User.t -> bool) (l : list User.t) (u v : User.t) :
  lookup (User._id v) l = Some u ->
  find f l = Some u ->
  f v = true ->
  find f (replace v l) = Some v.
Proof.
  unfold lookup. induction l as [|x r IH]; simpl; [discriminate|].
  intros Hl Hf Hv.
  destruct (by_id (User._id v) x) eqn:Ex.
  - simpl. rewrite Hv. reflexivity.
  - destruct (f x) eqn:Fx.
    + inversion Hf; subst x.
      apply find_some in Hl. destruct Hl as [_ Hl]. congruence.
    + simpl. rewrite Fx. apply IH; assumption.
Qed.

Section PasswordPaths.

Context `{Collaborators}.

(** X17.  A password change whose new password, equal to the
    confirmation, is blank after trimming fails with the ValidationError
    "New password is required,cannot be empty" (status 400), before the
    current password is looked at; the world is untouched. *)
Theorem changeCurrentPassword_blank_rejected (req : request) (w : world) (new : string) :
  Body.newPassword (body req) = Some new ->
  Body.confirmPassword (body req) = Some new ->
  Js.trim new = "" ->
  changeCurrentPassword req w
  = (Throw (ApiError 400 "New password is required,cannot be empty"), w)
  /\ kind_of (ApiError 400 "New password is required,cannot be empty")
     = ValidationError.
Proof.
  intros Hnew Hconf Hblank. split; [|reflexivity].
  unfold changeCurrentPassword. rewrite Hnew, Hconf.
  unfold Js.strict_eq. rewrite String.eqb_refl. simpl.
  unfold bind. simpl. rewrite Hblank. reflexivity.
Qed.

(** X18.  A password change with an acceptable new password by a user
    whose current password does not verify against the stored hash
    fails with the AuthenticationError "Invalid current password"
    (status 400); the one collaborator call is the lookup of the user
    and the stored hash stays. *)
Theorem changeCurrentPassword_wrong_current
  (req : request) (w : world) (me u : User.t) (cur new : string) :
  Body.password (body req) = Some cur ->
  Body.newPassword (body req) = Some new ->
  Body.confirmPassword (body req) = Some new ->
  Js.trim new <> "" ->
  user req = Some me ->
  lookup (User._id me) (db w) = Some u ->
  bcrypt_compare cur (User.password u) = false ->
  changeCurrentPassword req w
  = (Throw (ApiError 400 "Invalid current password"),
     called (FindById (Some (User._id me))) w)
  /\ kind_of (ApiError 400 "Invalid current password") = AuthenticationError.
Proof.
  intros Hcur Hnew Hconf Hblank Hme Hu Hbad. split; [|reflexivity].
  unfold changeCurrentPassword. rewrite Hcur, Hnew, Hconf, Hme.
  unfold Js.strict_eq. rewrite String.eqb_refl. simpl.
  assert (Hnb : (Js.trim new =? "") = false) by (apply String.eqb_neq; exact Hblank).
  unfold bind at 1. simpl. rewrite Hnb. simpl.
  unfold User_findById, bind, emit, get_db, ret. simpl.
  rewrite Hu. simpl. rewrite Hbad. reflexivity.
Qed.

(** X19.  Two requests the password change does not reject but crashes
    on, with a TypeError.  One that has neither a new password nor a
    confirmation passes the equality check, [undefined] being equal to
    [undefined], and fails at [newPassword.trim()], the world untouched.
    One with an acceptable new password that carries no user, or a user
    without a record, fails at [user.isPasswordCorrect], the store as it
    was. *)
Theorem changeCurrentPassword_type_errors (req : request) (w : world) :
  (Body.newPassword (body req) = None ->
   Body.confirmPassword (body req) = None ->
   changeCurrentPassword req w
   = (Throw (TypeError "Cannot read properties of null or undefined"), w))
  /\ (forall new,
        Body.newPassword (body req) = Some new ->
        Body.confirmPassword (body req) = Some new ->
        Js.trim new <> "" ->
        match user req with
        | Some me => lookup (User._id me) (db w) = None
        | None => True
        end ->
        changeCurrentPassword req w
        = (Throw (TypeError "Cannot read properties of null or undefined"),
           called (FindById (option_map User._id (user req))) w)).
Proof.
  split.
  - intros Hnew Hconf. unfold changeCurrentPassword. rewrite Hnew, Hconf.
    reflexivity.
  - intros new Hnew Hconf Hblank Habsent.
    unfold changeCurrentPassword. rewrite Hnew, Hconf.
    unfold Js.strict_eq. rewrite String.eqb_refl. simpl.
    assert (Hnb : (Js.trim new =? "") = false)
      by (apply String.eqb_neq; exact Hblank).
    unfold bind at 1. simpl. rewrite Hnb. simpl.
    unfold User_findById, bind, emit, get_db, ret. simpl.
    destruct (user req) as [me|]; simpl; [rewrite Habsent|]; reflexivity.
Qed.

(** The run of a password change that is served. *)
Lemma changeCurrentPassword_served
  (req : request) (w : world) (me u : User.t) (cur new : string) :
  Body.password (body req) = Some cur ->
  Body.newPassword (body req) = Some new ->
  Body.confirmPassword (body req) = Some new ->
  Js.trim new <> "" ->
  user req = Some me ->
  lookup (User._id me) (db w) = Some u ->
  bcrypt_compare cur (User.password u) = true ->
  changeCurrentPassword req w
  = (Ok (mkResponse 200 []
           (mkApiResponse 200 (Js.Obj []) "Password changed successfully")),
     mkWorld (replace (User.set_password (bcrypt_hash new) u) (db w))
       (Save (User._id me) :: FindById (Some (User._id me)) :: log w)
       (floating w)).
Proof.
  intros Hcur Hnew Hconf Hblank Hme Hu Hok.
  unfold changeCurrentPassword. rewrite Hcur, Hnew, Hconf, Hme.
  unfold Js.strict_eq. rewrite String.eqb_refl. simpl.
  assert (Hnb : (Js.trim new =? "") = false)
    by (apply String.eqb_neq; exact Hblank).
  unfold bind at 1. simpl. rewrite Hnb. simpl.
  unfold User_findById, User_save, bind, emit, get_db, put_db, ret. simpl.
  rewrite Hu. simpl. rewrite Hok. simpl.
  rewrite (lookup_id _ _ _ Hu), Hu. reflexivity.
Qed.

(** X20.  Change the password, then log in.  After a password change
    that is served, a login of that user with the new password is
    served (status 200) and a login with the old password fails with
    "Invalid username or password" (status 400), provided the hash
    scheme is sound, the two passwords differ and the tokens can be
    signed. *)
Theorem change_password_then_login
  (req reqNew reqOld : request) (w : world) (me u : User.t) (cur new a r : string) :
  sound_hash ->
  Body.password (body req) = Some cur ->
  Body.newPassword (body req) = Some new ->
  Body.confirmPassword (body req) = Some new ->
  Js.trim new <> "" ->
  new <> cur ->
  cur <> "" ->
  user req = Some me ->
  lookup (User._id me) (db w) = Some u ->
  bcrypt_compare cur (User.password u) = true ->
  User.username u <> "" ->
  find (matches_or (Some (User.username u)) None) (db w) = Some u ->
  (forall v, User.username v = User.username u ->
     generateAccessToken v = Some a /\ generateRefreshToken v = Some r) ->
  Body.username (body reqNew) = Some (User.username u) ->
  Body.email (body reqNew) = None ->
  Body.password (body reqNew) = Some new ->
  Body.username (body reqOld) = Some (User.username u) ->
  Body.email (body reqOld) = None ->
  Body.password (body reqOld) = Some cur ->
  status_of (fst (loginUser reqNew (snd (changeCurrentPassword req w)))) = Some 200
  /\ fst (loginUser reqOld (snd (changeCurrentPassword req w)))
     = Throw (ApiError 400 "Invalid username or password").
Proof.
  intros Hsound Hcur Hnew Hconf Hblank Hne Hcurne Hme Hu Hok Hname Hfind Hsign
         HunN HemN HpwN HunO HemO HpwO.
  assert (Hdb : db (snd (changeCurrentPassword req w))
                = replace (User.set_password (bcrypt_hash new) u) (db w)).
  { rewrite (changeCurrentPassword_served req w me u cur new); auto. }
  - set (v := User.set_password (bcrypt_hash new) u).
    assert (Hidu : User._id u = User._id me) by (apply (lookup_id _ _ _ Hu)).
    assert (Hlv : lookup (User._id v) (db w) = Some u)
      by (simpl; rewrite Hidu; exact Hu).
    assert (Hfind' : find (matches_or (Some (User.username u)) None)
                       (replace v (db w)) = Some v).
    { apply (find_replace _ _ u v Hlv Hfind).
      unfold matches_or. simpl. rewrite String.eqb_refl. reflexivity. }
    assert (Hlook' : lookup (User._id u) (replace v (db w)) = Some v)
      by (apply (lookup_replace (db w) u v Hlv)).
    destruct (Hsign v eq_refl) as [Ha Hr].
    assert (Hnewne : new <> "").
    { intros E. subst new. apply Hblank. reflexivity. }
    assert (Hold : bcrypt_compare cur (bcrypt_hash new) = false).
    { destruct (bcrypt_compare cur (bcrypt_hash new)) eqn:E; [|reflexivity].
      apply Hsound in E. congruence. }
    assert (Hgood : bcrypt_compare new (bcrypt_hash new) = true)
      by (apply Hsound; reflexivity).
    assert (Hident : forall b, negb (Js.truthy (Some (User.username u))) && b = false).
    { intros b. rewrite (truthy_some _ Hname). reflexivity. }
    set (w' := snd (changeCurrentPassword req w)) in *. clearbody w'.
    split.
    + unfold loginUser. rewrite HunN, HemN, HpwN, Hident, (truthy_some _ Hnewne).
      simpl. unfold User_findOne, bind at 1 2, emit, get_db, ret at 1. simpl.
      rewrite Hdb. fold v. rewrite Hfind'. unfold bind at 1. simpl.
      rewrite Hgood. simpl. unfold bind at 1. rewrite generateTokens_run. simpl.
      rewrite Hlook', Ha, Hr. reflexivity.
    + unfold loginUser. rewrite HunO, HemO, HpwO, Hident, (truthy_some _ Hcurne).
      simpl. unfold User_findOne, bind, emit, get_db, ret. simpl.
      rewrite Hdb. fold v. rewrite Hfind'. simpl. rewrite Hold. reflexivity.
Qed.

End PasswordPaths.

Lemma changeCurrentPassword_blank_rejected_witness :
  @changeCurrentPassword Demo.collaborators
     (Demo.change_password "p1" "  " "  ") Demo.world1
  = (Throw (ApiError 400 "New password is required,cannot be empty"), Demo.world1)
  /\ kind_of (ApiError 400 "New password is required,cannot be empty")
     = ValidationError.
Proof.
  apply (@changeCurrentPassword_blank_rejected Demo.collaborators
           (Demo.change_password "p1" "  " "  ") Demo.world1 "  "); reflexivity.
Defined.

Lemma changeCurrentPassword_wrong_current_witness :
  @changeCurrentPassword Demo.collaborators
     (Demo.change_password "guess" "p2" "p2") Demo.world1
  = (Throw (ApiError 400 "Invalid current password"),
     called (FindById (Some 1)) Demo.world1)
  /\ kind_of (ApiError 400 "Invalid current password") = AuthenticationError.
Proof.
  refine (@changeCurrentPassword_wrong_current Demo.collaborators
            (Demo.change_password "guess" "p2" "p2") Demo.world1
            Demo.ava Demo.ava "guess" "p2"
            eq_refl eq_refl eq_refl _ eq_refl eq_refl eq_refl).
  discriminate.
Defined.

Lemma changeCurrentPassword_type_errors_witness :
  @changeCurrentPassword Demo.collaborators
     (mkRequest (Body.mk None None (Some "p1") None None None None)
        Cookies.empty None (Some Demo.ava)) Demo.world1
  = (Throw (TypeError "Cannot read properties of null or undefined"), Demo.world1)
  /\ @changeCurrentPassword Demo.collaborators
       (Demo.change_password "p1" "p2" "p2") Demo.world0
     = (Throw (TypeError "Cannot read properties of null or undefined"),
        called (FindById (Some 1)) Demo.world0).
Proof.
  split.
  - apply (proj1 (@changeCurrentPassword_type_errors Demo.collaborators _ Demo.world1));
      reflexivity.
  - refine (proj2 (@changeCurrentPassword_type_errors Demo.collaborators
                     (Demo.change_password "p1" "p2" "p2") Demo.world0)
              "p2" eq_refl eq_refl _ eq_refl).
    discriminate.
Defined.

Lemma change_password_then_login_witness :
  status_of
    (fst (@loginUser Demo.collaborators
            (mkRequest (Body.mk (Some "ava") None (Some "p2") None None None None)
               Cookies.empty None None)
            (snd (@changeCurrentPassword Demo.collaborators
                    (Demo.change_password "p1" "p2" "p2") Demo.world1))))
  = Some 200
  /\ fst (@loginUser Demo.collaborators Demo.login_ava
            (snd (@changeCurrentPassword Demo.collaborators
                    (Demo.change_password "p1" "p2" "p2") Demo.world1)))
     = Throw (ApiError 400 "Invalid username or password").
Proof.
  refine (@change_password_then_login Demo.collaborators
            (Demo.change_password "p1" "p2" "p2")
            (mkRequest (Body.mk (Some "ava") None (Some "p2") None None None None)
               Cookies.empty None None)
            Demo.login_ava Demo.world1
            Demo.ava Demo.ava "p1" "p2" "access:ava" "refresh:ava"
            demo_sound_hash eq_refl eq_refl eq_refl _ _ _ eq_refl eq_refl eq_refl
            _ eq_refl _ eq_refl eq_refl eq_refl eq_refl eq_refl eq_refl);
    try discriminate.
  intros v Hv. simpl. rewrite Hv. split; reflexivity.
Defined.

(** ** The profile images *)

Section ImagePaths.

Context `{Collaborators} `{StoreEdge}.

(** X21.  An avatar update without a file, or with a file that has no
    path, fails with the ValidationError "Avatar is required" (status
    400) and nothing is uploaded.  One whose upload yields nothing, or a
    result with an empty URL, fails with the UploadError "Failed to
    upload avatar" (status 500).  The store is as it was in both. *)
Theorem updateAvatar_rejections (req : file_request) (w : world) :
  (Js.truthy (file_path req) = false ->
   updateAvatar req w = (Throw (ApiError 400 "Avatar is required"), w)
   /\ kind_of (ApiError 400 "Avatar is required") = ValidationError)
  /\ (Js.truthy (file_path req) = true ->
      match uploadOnCloudinary (file_path req) with
      | Some image => Upload.url image = ""
      | None => True
      end ->
      updateAvatar req w
      = (Throw (ApiError 500 "Failed to upload avatar"),
         called (Upload (file_path req)) w)
      /\ kind_of (ApiError 500 "Failed to upload avatar") = UploadError).
Proof.
  split.
  - intros Hnone. split; [|reflexivity].
    unfold updateAvatar. rewrite Hnone. reflexivity.
  - intros Hsome Hbad. split; [|reflexivity].
    unfold updateAvatar. rewrite Hsome.
    unfold upload, bind, emit, ret. simpl.
    destruct (uploadOnCloudinary (file_path req)) as [image|]; [|reflexivity].
    rewrite Hbad. reflexivity.
Qed.

(** X22.  An avatar update by a user who has a record, with a file the
    media host accepts, answers with status 200 and the user as stored
    after the update: the avatar is the new URL, the [password] and
    [refreshToken] fields are left out of the answer.  On the record
    only the avatar has changed. *)
Theorem updateAvatar_served
  (req : file_request) (w : world) (me u : User.t) (p : string) (image : Upload.result) :
  file_path req = Some p ->
  p <> "" ->
  uploadOnCloudinary (Some p) = Some image ->
  Upload.url image <> "" ->
  user (request_of req) = Some me ->
  lookup (User._id me) (db w) = Some u ->
  exists doc,
    fst (updateAvatar req w)
    = Ok (mkResponse 200 []
            (mkApiResponse 200 (Js.Obj doc) "Avatar updated successfully"))
    /\ Js.get "avatar" doc = Some (Js.Str (Upload.url image))
    /\ Js.get "username" doc = Some (Js.Str (User.username u))
    /\ Js.has "password" doc = false
    /\ Js.has "refreshToken" doc = false
    /\ lookup (User._id me) (db (snd (updateAvatar req w)))
       = Some (set_avatar (Upload.url image) u).
Proof.
  intros Hpath Hp Himage Hurl Hme Hu.
  assert (Hrun :
    updateAvatar req w
    = (Ok (mkResponse 200 []
             (mkApiResponse 200
                (sanitized (Some (set_avatar (Upload.url image) u)))
                "Avatar updated successfully")),
       mkWorld (replace (set_avatar (Upload.url image) u) (db w))
         (FindByIdAndUpdate (User._id me) :: Upload (Some p) :: log w)
         (floating w))).
  { unfold updateAvatar. rewrite Hpath, (truthy_some _ Hp), Hme.
    unfold upload, bind at 1 2, emit, ret at 1. simpl. rewrite Himage.
    assert (E : (Upload.url image =? "") = false)
      by (apply String.eqb_neq; exact Hurl).
    rewrite E. simpl.
    unfold User_findByIdAndUpdate_new, bind, emit, get_db, put_db, ret. simpl.
    rewrite Hu. reflexivity. }
  rewrite Hrun. simpl.
  eexists. split; [reflexivity|].
  unfold User.toObject. simpl.
  destruct (User.refreshToken u); simpl; repeat split;
    rewrite <- (lookup_id _ _ _ Hu);
    apply (lookup_replace (db w) u (set_avatar (Upload.url image) u));
    simpl; rewrite (lookup_id _ _ _ Hu); exact Hu.
Qed.

(** X23.  The cover-image update, case by case: without a file path it
    fails with "cover image is required" (status 400) before any
    upload; when the upload yields nothing or an empty URL it fails with
    "Failed to upload cover image" (status 500); otherwise, for a user
    with a record, it answers 200 and the record's cover image is the
    new URL, its avatar, password hash and refresh token as before. *)
Theorem updateCoverImage_outcomes
  (req : file_request) (w : world) (me u : User.t) :
  user (request_of req) = Some me ->
  lookup (User._id me) (db w) = Some u ->
  if negb (Js.truthy (file_path req))
  then updateCoverImage req w
       = (Throw (ApiError 400 "cover image is required"), w)
  else
    match uploadOnCloudinary (file_path req) with
    | None =>
        fst (updateCoverImage req w)
          = Throw (ApiError 500 "Failed to upload cover image")
        /\ db (snd (updateCoverImage req w)) = db w
    | Some image =>
        if Upload.url image =? ""
        then fst (updateCoverImage req w)
               = Throw (ApiError 500 "Failed to upload cover image")
             /\ db (snd (updateCoverImage req w)) = db w
        else status_of (fst (updateCoverImage req w)) = Some 200
             /\ lookup (User._id me) (db (snd (updateCoverImage req w)))
                = Some (User.mk (User._id u) (User.username u) (User.email u)
                          (User.password u) (User.fullname u) (User.avatar u)
                          (Upload.url image) (User.refreshToken u))
    end.
Proof.
  intros Hme Hu.
  destruct (Js.truthy (file_path req)) eqn:Hpath; simpl.
  - assert (Hrun :
      updateCoverImage req w
      = match uploadOnCloudinary (file_path req) with
        | Some image =>
            if Upload.url image =? ""
            then (Throw (ApiError 500 "Failed to upload cover image"),
                  called (Upload (file_path req)) w)
            else (Ok (mkResponse 200 []
                        (mkApiResponse 200
                           (sanitized (Some (set_coverImage (Upload.url image) u)))
                           "cover image updated successfully")),
                  mkWorld (replace (set_coverImage (Upload.url image) u) (db w))
                    (FindByIdAndUpdate (User._id me) :: Upload (file_path req)
                     :: log w)
                    (floating w))
        | None => (Throw (ApiError 500 "Failed to upload cover image"),
                   called (Upload (file_path req)) w)
        end).
    { unfold updateCoverImage. rewrite Hpath, Hme.
      unfold upload, bind at 1 2, emit, ret at 1. simpl.
      destruct (uploadOnCloudinary (file_path req)) as [image|]; [|reflexivity].
      destruct (Upload.url image =? ""); simpl; [reflexivity|].
      unfold User_findByIdAndUpdate_new, bind, emit, get_db, put_db, ret. simpl.
      rewrite Hu. reflexivity. }
    rewrite Hrun.
    destruct (uploadOnCloudinary (file_path req)) as [image|]; [|split; reflexivity].
    destruct (Upload.url image =? ""); [split; reflexivity|].
    simpl. split; [reflexivity|].
    rewrite <- (lookup_id _ _ _ Hu).
    apply (lookup_replace (db w) u (set_coverImage (Upload.url image) u)).
    simpl. rewrite (lookup_id _ _ _ Hu). exact Hu.
  - unfold updateCoverImage. rewrite Hpath. reflexivity.
Qed.

End ImagePaths.

Lemma updateAvatar_rejections_witness :
  @updateAvatar Demo.collaborators Sample.store_edge Sample.no_file Sample.world3
  = (Throw (ApiError 400 "Avatar is required"), Sample.world3)
  /\ @updateAvatar Demo.collaborators Sample.store_edge Sample.refused_file
       Sample.world3
     = (Throw (ApiError 500 "Failed to upload avatar"),
        called (Upload (Some "tmp/broken.png")) Sample.world3).
Proof.
  split.
  - apply (proj1 (@updateAvatar_rejections Demo.collaborators Sample.store_edge
                    Sample.no_file Sample.world3)).
    reflexivity.
  - apply (proj2 (@updateAvatar_rejections Demo.collaborators Sample.store_edge
                    Sample.refused_file Sample.world3)).
    + reflexivity.
    + exact I.
Defined.

Lemma updateAvatar_served_witness :
  exists doc,
    fst (@updateAvatar Demo.collaborators Sample.store_edge
           Sample.new_avatar Sample.world3)
    = Ok (mkResponse 200 []
            (mkApiResponse 200 (Js.Obj doc) "Avatar updated successfully"))
    /\ Js.get "avatar" doc = Some (Js.Str "https://media.example/avatar.png")
    /\ Js.get "username" doc = Some (Js.Str "ava")
    /\ Js.has "password" doc = false
    /\ Js.has "refreshToken" doc = false
    /\ lookup 1 (db (snd (@updateAvatar Demo.collaborators Sample.store_edge
                            Sample.new_avatar Sample.world3)))
       = Some (set_avatar "https://media.example/avatar.png" Demo.ava_in).
Proof.
  refine (@updateAvatar_served Demo.collaborators Sample.store_edge
            Sample.new_avatar Sample.world3 Demo.ava_in Demo.ava_in
            "tmp/avatar.png" (Upload.mk "https://media.example/avatar.png")
            eq_refl _ eq_refl _ eq_refl eq_refl); discriminate.
Defined.

Lemma updateCoverImage_outcomes_witness :
  status_of (fst (@updateCoverImage Demo.collaborators Sample.store_edge
                    Sample.new_avatar Sample.world3)) = Some 200
  /\ lookup 1 (db (snd (@updateCoverImage Demo.collaborators Sample.store_edge
                          Sample.new_avatar Sample.world3)))
     = Some (set_coverImage "https://media.example/avatar.png" Demo.ava_in).
Proof.
  exact (@updateCoverImage_outcomes Demo.collaborators Sample.store_edge
           Sample.new_avatar Sample.world3 Demo.ava_in Demo.ava_in
           eq_refl eq_refl).
Defined.

(** ** The client *)

Lemma append_assoc3 (a b c : string) : (a ++ b) ++ c = a ++ (b ++ c).
Proof. induction a as [|x a IH]; simpl; [reflexivity|]. rewrite IH. reflexivity. Qed.

Lemma append_same_prefix (s a b : string) : s ++ a = s ++ b -> a = b.
Proof.
  induction s as [|x s IH]; simpl; intros E; [exact E|].
  inversion E. apply IH. assumption.
Qed.

(** Two strings without a slash, each followed by a slash and more: the
    first slash tells where each ends. *)
Lemma split_at_slash (p p' x y : string) :
  PlaylistService.has_slash p = false ->
  PlaylistService.has_slash p' = false ->
  p ++ "/" ++ x = p' ++ "/" ++ y ->
  p = p' /\ x = y.
Proof.
  revert p'. induction p as [|c p IH]; intros [|c' p'] Hp Hp' E; simpl in *.
  - inversion E. split; reflexivity.
  - inversion E; subst c'. simpl in Hp'. discriminate.
  - inversion E; subst c. simpl in Hp. discriminate.
  - apply orb_false_iff in Hp. apply orb_false_iff in Hp'.
    inversion E; subst c'.
    destruct (IH p' (proj2 Hp) (proj2 Hp') H1) as [-> ->].
    split; reflexivity.
Qed.

(** X24.  For identifiers that hold no slash, the URL that
    [addVideoToPlaylist] calls names one video and one playlist: two
    calls to the same URL are calls for the same video and the same
    playlist. *)
Theorem addVideoToPlaylist_url_names_both (videoId playlistId videoId' playlistId' : string) :
  PlaylistService.has_slash videoId = false ->
  PlaylistService.has_slash playlistId = false ->
  PlaylistService.has_slash videoId' = false ->
  PlaylistService.has_slash playlistId' = false ->
  PlaylistService.url (PlaylistService.addVideoToPlaylist videoId playlistId)
  = PlaylistService.url (PlaylistService.addVideoToPlaylist videoId' playlistId') ->
  videoId = videoId' /\ playlistId = playlistId'.
Proof.
  intros Hv Hp Hv' Hp' E. simpl in E.
  apply (append_same_prefix "/playlists/") in E.
  destruct (split_at_slash _ _ _ _ Hp Hp' E) as [-> E2].
  destruct (split_at_slash _ _ _ _ Hv Hv' E2) as [-> _].
  split; reflexivity.
Qed.

(** X25.  The identifiers are put into the URL as they are, and a slash
    in one moves the border between them: the call that adds video
    [b/c] to playlist [a] is the call that adds video [c] to playlist
    [a/b], and the call that gets the playlist named [u/all-playlists]
    is the call that lists the playlists of user [u]. *)
Theorem playlist_urls_alias (a b c u : string) :
  PlaylistService.addVideoToPlaylist (b ++ "/" ++ c) a
  = PlaylistService.addVideoToPlaylist c (a ++ "/" ++ b)
  /\ PlaylistService.getPlaylist (u ++ "/all-playlists")
     = PlaylistService.getPlaylists u.
Proof.
  split; [|reflexivity].
  unfold PlaylistService.addVideoToPlaylist. f_equal. f_equal.
  rewrite !append_assoc3. reflexivity.
Qed.

Lemma step_alerts_searched (s : SearchBar.state) (e : SearchBar.event) :
  Forall (fun msg => exists q, q <> "" /\ msg = "You searched for " ++ q)
    (SearchBar.alerts s) ->
  Forall (fun msg => exists q, q <> "" /\ msg = "You searched for " ++ q)
    (SearchBar.alerts (SearchBar.step s e)).
Proof.
  intros Hs. destruct e; simpl; try exact Hs.
  destruct (SearchBar.input s =? "") eqn:E; simpl; [exact Hs|].
  constructor; [|exact Hs].
  exists (SearchBar.input s). split; [|reflexivity].
  apply String.eqb_neq. exact E.
Qed.

(** X26.  Whatever is typed and clicked, in whatever order, the search
    bar never announces a search for nothing: every alert it has shown
    reads "You searched for " followed by a text that is not empty. *)
Theorem searchBar_never_searches_nothing (es : list SearchBar.event) (msg : string) :
  In msg (SearchBar.alerts (SearchBar.run es)) ->
  exists q, q <> "" /\ msg = "You searched for " ++ q.
Proof.
  assert (Hall : forall s,
            Forall (fun msg => exists q, q <> "" /\ msg = "You searched for " ++ q)
              (SearchBar.alerts s) ->
            Forall (fun msg => exists q, q <> "" /\ msg = "You searched for " ++ q)
              (SearchBar.alerts (fold_left SearchBar.step es s))).
  { induction es as [|e es IH]; intros s Hs; simpl; [exact Hs|].
    apply IH. apply step_alerts_searched. exact Hs. }
  intros Hin. unfold SearchBar.run in Hin.
  pose proof (Hall SearchBar.initial (Forall_nil _)) as HF.
  rewrite Forall_forall in HF. apply HF. exact Hin.
Qed.

(** X27.  After the clear button is clicked the text is empty, the
    clear button is hidden and the search button disabled, and they stay
    so, clicks on either button changing nothing, until something is
    typed. *)
Theorem searchBar_cleared_until_typed (es clicks : list SearchBar.event) :
  Forall (fun e => e = SearchBar.ClickClear \/ e = SearchBar.ClickSearch) clicks ->
  SearchBar.run (es ++ SearchBar.ClickClear :: clicks)
  = SearchBar.run (es ++ [SearchBar.ClickClear])
  /\ SearchBar.render (SearchBar.input (SearchBar.run (es ++ SearchBar.ClickClear :: clicks)))
     = SearchBar.mkView "" false true.
Proof.
  intros Hclicks. unfold SearchBar.run. rewrite !fold_left_app. simpl.
  set (s := SearchBar.mkState "" (SearchBar.alerts (fold_left SearchBar.step es SearchBar.initial))).
  assert (Hstay : fold_left SearchBar.step clicks s = s).
  { induction Hclicks as [|e l [->| ->] _ IH]; simpl; auto. }
  rewrite Hstay. split; reflexivity.
Qed.

Lemma addVideoToPlaylist_url_names_both_witness :
  "v42" = "v42" /\ "p7" = "p7".
Proof.
  apply (addVideoToPlaylist_url_names_both "v42" "p7" "v42" "p7"); reflexivity.
Defined.

Lemma searchBar_never_searches_nothing_witness :
  exists q, q <> "" /\ "You searched for cats" = "You searched for " ++ q.
Proof.
  apply (searchBar_never_searches_nothing
           [ SearchBar.ClickSearch; SearchBar.Input "cats"; SearchBar.ClickSearch;
             SearchBar.ClickClear; SearchBar.ClickSearch ]).
  simpl. left. reflexivity.
Defined.

Lemma searchBar_cleared_until_typed_witness :
  SearchBar.run [ SearchBar.Input "cats"; SearchBar.ClickClear;
                  SearchBar.ClickSearch; SearchBar.ClickClear ]
  = SearchBar.run [ SearchBar.Input "cats"; SearchBar.ClickClear ]
  /\ SearchBar.render
       (SearchBar.input
          (SearchBar.run [ SearchBar.Input "cats"; SearchBar.ClickClear;
                           SearchBar.ClickSearch; SearchBar.ClickClear ]))
     = SearchBar.mkView "" false true.
Proof.
  apply (searchBar_cleared_until_typed [SearchBar.Input "cats"]
           [SearchBar.ClickSearch; SearchBar.ClickClear]).
  constructor; [right; reflexivity|].
  constructor; [left; reflexivity|constructor].
Defined.
